(** * steam_miner: the match-id miner of dota2-predictor

    A shallow embedding of [src/mining/steam_miner.py] and the properties
    of its validity filter [valid] and of its harvest loop
    [SteamMiner.run].  The module is Python 2 ([xrange], [urllib.urlopen],
    [/] on integers), and the embedding follows Python 2 where it matters:
    integer division rounds down, [bool] is a kind of [int], and values of
    different types compare without an error.

    - Decoded JSON is the inductive [json]; a decoded object is an
      association list read by key (the program never updates one).  JSON
      numbers are integers: floating point values are outside the model.
    - A Python exception is a value of [exn].  Pure code lives in
      [result]; effectful code lives in the monad [M], which threads the
      miner object and the outside world and keeps the effects made before
      an exception.
    - The network is a function from the number of calls made so far and
      the URL to a [reply].  What the process does to the outside world is
      recorded, in order, in the world's [trace]; [seq_num.txt] is a field
      of the world.
    - [str] of a list or of a dict is a parameter of the miner's code: no
      statement below depends on it.

    Definitions come first (values, the filter, text, the world, the
    miner, the command line, then the vocabulary of the statements and
    sample data), the lemmas and theorems after them. *)

From Stdlib Require Import ZArith List String Ascii Bool Lia.
From Stdlib Require Import DecimalString DecimalZ.
Import ListNotations.
Local Open Scope string_scope.
Local Open Scope Z_scope.

Set Warnings "-register-all".

(* ================================================================== *)
(** ** Python values and exceptions *)

Inductive json : Type :=
| JNull
| JBool (b : bool)
| JInt (n : Z)
| JStr (s : string)
| JList (l : list json)
| JDict (d : list (string * json)).

Inductive exn : Type :=
| KeyError | TypeError | AttributeError | IOError | ValueError
| UnicodeEncodeError.

Inductive result (A : Type) : Type :=
| Ok (a : A)
| Raise (e : exn).
Arguments Ok {A} a.
Arguments Raise {A} e.

Definition rbind {A B} (r : result A) (k : A -> result B) : result B :=
  match r with
  | Ok a => k a
  | Raise e => Raise e
  end.

Declare Scope result_scope.
Delimit Scope result_scope with res.
Notation "x <- e ;; k" := (rbind e (fun x => k))
  (at level 61, e at next level, right associativity) : result_scope.

(** [d[key]] on a decoded object: the first binding of [key]. *)
Fixpoint dict_get (key : string) (d : list (string * json)) : option json :=
  match d with
  | [] => None
  | (k, v) :: d' => if String.eqb k key then Some v else dict_get key d'
  end.

(** [v[key]] for a string [key]: only a dict can be indexed by a string. *)
Definition py_getitem (v : json) (key : string) : result json :=
  match v with
  | JDict d => match dict_get key d with
               | Some x => Ok x
               | None => Raise KeyError
               end
  | _ => Raise TypeError
  end.

(** [v.get(key, default)]: only a dict has the method. *)
Definition py_get (v : json) (key : string) (default : json) : result json :=
  match v with
  | JDict d => match dict_get key d with
               | Some x => Ok x
               | None => Ok default
               end
  | _ => Raise AttributeError
  end.

Fixpoint chars (s : string) : list json :=
  match s with
  | EmptyString => []
  | String c s' => JStr (String c EmptyString) :: chars s'
  end.

(** What [for x in v] runs over: the elements of a list, the keys of a
    dict, the characters of a string; nothing else is iterable. *)
Definition py_iter (v : json) : result (list json) :=
  match v with
  | JList l => Ok l
  | JDict d => Ok (map JStr (nodup string_dec (map fst d)))
  | JStr s => Ok (chars s)
  | _ => Raise TypeError
  end.

Definition Z_of_bool (b : bool) : Z := if b then 1 else 0.

(** [v == n] for an integer [n]: [bool] is a subtype of [int]. *)
Definition py_eq_int (v : json) (n : Z) : bool :=
  match v with
  | JInt z => z =? n
  | JBool b => Z_of_bool b =? n
  | _ => false
  end.

Definition py_ne_int (v : json) (n : Z) : bool := negb (py_eq_int v n).

(** [v < n] for an integer [n], with Python 2's ordering of mixed types:
    [None] is below every value and numbers are below every other type. *)
Definition py_lt_int (v : json) (n : Z) : bool :=
  match v with
  | JNull => true
  | JBool b => Z_of_bool b <? n
  | JInt z => z <? n
  | JStr _ | JList _ | JDict _ => false
  end.

(** [v + n] for an integer [n]. *)
Definition py_add_int (v : json) (n : Z) : result Z :=
  match v with
  | JInt z => Ok (z + n)
  | JBool b => Ok (Z_of_bool b + n)
  | _ => Raise TypeError
  end.

(** Truth value of [v], as [not v] tests it. *)
Definition py_truthy (v : json) : bool :=
  match v with
  | JNull => false
  | JBool b => b
  | JInt z => negb (z =? 0)
  | JStr s => negb (String.eqb s "")
  | JList l => match l with [] => false | _ => true end
  | JDict d => match d with [] => false | _ => true end
  end.

(* ================================================================== *)
(** ** The validity filter *)

Definition MIN_DURATION : Z := 1200.

(** The loop over the players of [valid]: [Ok true] when it reaches
    [return False], [Ok false] when it runs to its end. *)
Fixpoint leaver_found (players : list json) : result bool :=
  match players with
  | [] => Ok false
  | player :: rest =>
      (s <- py_get player "leaver_status" (JInt 1) ;;
       if py_eq_int s 1 then Ok true else leaver_found rest)%res
  end.

(** The three tests of [valid] that follow the loop. *)
Definition valid_after_players (match_json : json) : result bool :=
  (d <- py_getitem match_json "duration" ;;
   if py_lt_int d MIN_DURATION then Ok false else
   h <- py_getitem match_json "human_players" ;;
   if py_ne_int h 10 then Ok false else
   g <- py_getitem match_json "game_mode" ;;
   if py_ne_int g 22 then Ok false else
   Ok true)%res.

Definition valid (match_json : json) : result bool :=
  (ps <- py_getitem match_json "players" ;;
   players <- py_iter ps ;;
   found <- leaver_found players ;;
   if found then Ok false else valid_after_players match_json)%res.

(* ================================================================== *)
(** ** Text: [str], [int], [readline], [in] *)

(** [str(z)] for an integer. *)
Definition str_int (z : Z) : string := NilZero.string_of_int (Z.to_int z).

Definition is_ascii (c : ascii) : bool := (nat_of_ascii c <? 128)%nat.

Fixpoint all_ascii (s : string) : bool :=
  match s with
  | EmptyString => true
  | String c s' => is_ascii c && all_ascii s'
  end.

Definition is_space (c : ascii) : bool :=
  match nat_of_ascii c with
  | 9%nat | 10%nat | 11%nat | 12%nat | 13%nat | 32%nat => true
  | _ => false
  end.

Fixpoint lstrip (s : string) : string :=
  match s with
  | EmptyString => EmptyString
  | String c s' => if is_space c then lstrip s' else s
  end.

Fixpoint rstrip (s : string) : string :=
  match s with
  | EmptyString => EmptyString
  | String c s' =>
      let t := rstrip s' in
      if is_space c && String.eqb t "" then EmptyString else String c t
  end.

Definition digits_to_Z (s : string) : result Z :=
  match NilZero.uint_of_string s with
  | Some d => Ok (Z.of_uint d)
  | None => Raise ValueError
  end.

(** [int(s)] for a string: a decimal integer, optionally signed, with
    white space around it; anything else is a [ValueError]. *)
Definition py_int (s : string) : result Z :=
  match rstrip (lstrip s) with
  | EmptyString => Raise ValueError
  | String c t =>
      if Ascii.eqb c "+" then digits_to_Z t
      else if Ascii.eqb c "-" then (z <- digits_to_Z t ;; Ok (- z))%res
      else digits_to_Z (String c t)
  end.

(** [f.readline()] on a file whose content is [s]. *)
Fixpoint readline (s : string) : string :=
  match s with
  | EmptyString => EmptyString
  | String c s' =>
      if Ascii.eqb c "010" then String c EmptyString else String c (readline s')
  end.

(** [key in v]: a key of a dict, an element of a list, a substring of a
    string. *)
Definition py_contains (key : string) (v : json) : result bool :=
  match v with
  | JDict d => Ok (match dict_get key d with Some _ => true | None => false end)
  | JList l =>
      Ok (existsb (fun x => match x with
                            | JStr s => String.eqb s key
                            | _ => false
                            end) l)
  | JStr s => Ok (match String.index 0 key s with Some _ => true | None => false end)
  | _ => Raise TypeError
  end.

(* ================================================================== *)
(** ** The outside world *)

(** What [json.load] finds in a response. *)
Inductive body : Type :=
| NotJson
| Json (j : json).

(** What [urllib.urlopen] gets from the network. *)
Inductive reply : Type :=
| NetworkFailure
| Response (b : body).

(** The network: the reply to the [n]-th call (from 0), to a URL. *)
Definition transport : Type := nat -> string -> reply.

Inductive event : Type :=
| EvUrlopen (url : string) (r : reply)
| EvSleep (seconds : Z)
| EvPrint (line : string)
| EvWrite (text : string).

Record world : Type := mkWorld {
  seq_num_txt : option string;  (* the content of seq_num.txt, if it exists *)
  net_calls : nat;              (* calls of urlopen made so far *)
  trace : list event            (* what the process did, oldest first *)
}.

Record SteamMiner : Type := mkMiner {
  games_number : Z;
  api_key : string;
  seq_num : Z
}.

(** Effectful code: the miner object and the world go in and come out,
    also when an exception is raised. *)
Definition M (A : Type) : Type :=
  SteamMiner * world -> result A * (SteamMiner * world).

Definition ret {A} (a : A) : M A := fun s => (Ok a, s).

Definition raise {A} (e : exn) : M A := fun s => (Raise e, s).

Definition bind {A B} (m : M A) (k : A -> M B) : M B :=
  fun s => match m s with
           | (Ok a, s') => k a s'
           | (Raise e, s') => (Raise e, s')
           end.

Definition lift {A} (r : result A) : M A := fun s => (r, s).

Declare Scope io_scope.
Delimit Scope io_scope with io.
Notation "x <- e ;; k" := (bind e (fun x => k))
  (at level 61, e at next level, right associativity) : io_scope.
Notation "e ;; k" := (bind e (fun _ => k))
  (at level 61, right associativity) : io_scope.

Definition get_self : M SteamMiner := fun s => (Ok (fst s), s).

Definition set_seq_num (n : Z) : M unit :=
  fun '(self, w) =>
    (Ok tt, (mkMiner (games_number self) (api_key self) n, w)).

Definition log (e : event) (w : world) : world :=
  mkWorld (seq_num_txt w) (net_calls w) (trace w ++ [e])%list.

Definition print (line : string) : M unit :=
  fun '(self, w) => (Ok tt, (self, log (EvPrint line) w)).

Definition sleep (seconds : Z) : M unit :=
  fun '(self, w) => (Ok tt, (self, log (EvSleep seconds) w)).

Definition out_file_write (text : string) : M unit :=
  fun '(self, w) => (Ok tt, (self, log (EvWrite text) w)).

Definition write_seq_num_txt (text : string) : M unit :=
  fun '(self, w) => (Ok tt, (self, mkWorld (Some text) (net_calls w) (trace w))).

(* ================================================================== *)
(** ** The miner *)

Definition STEAM_BASE_URL : string :=
  "https://api.steampowered.com/IDOTA2Match_570/GetMatchHistoryBySequenceNum/v0001/?key=".
Definition SEQ_STRING : string := "&start_at_match_seq_num=".
Definition REQUESTS_STRING : string := "&matches_requested=".
Definition NUM_GAME_LIMIT : Z := 100000 * 100.

(** [range(n)] *)
Definition py_range (n : Z) : list Z := map Z.of_nat (seq 0 (Z.to_nat n)).

Definition json_load (response : body) : result json :=
  match response with
  | NotJson => Raise ValueError
  | Json j => Ok j
  end.

Definition get_starting_match_sequence_number (w : world) : result Z :=
  match seq_num_txt w with
  | None => Raise IOError
  | Some text => py_int (readline text)
  end.

(** [SteamMiner.__init__]; the output file handle is the world's. *)
Definition init (number_of_games : Z) (key : string) (w : world)
  : result SteamMiner :=
  (num <- get_starting_match_sequence_number w ;;
   Ok (mkMiner (Z.min number_of_games NUM_GAME_LIMIT) key num))%res.

Definition save_sequence_number : M unit :=
  (self <- get_self ;;
   write_seq_num_txt (str_int (seq_num self)))%io.

Definition get_url (self : SteamMiner) (matches_requested : Z) : string :=
  STEAM_BASE_URL ++ api_key self ++ SEQ_STRING ++ str_int (seq_num self) ++
  REQUESTS_STRING ++ str_int matches_requested.

Section Miner.

(** The network the miner talks to. *)
Variable net : transport.

(** [str] of a list or of a dict: Python prints a dict in the order of its
    hash table, which is not modelled; the text is left open. *)
Variable repr_container : json -> string.

Definition py_str (v : json) : result string :=
  match v with
  | JNull => Ok "None"
  | JBool b => Ok (if b then "True" else "False")
  | JInt z => Ok (str_int z)
  | JStr s => if all_ascii s then Ok s else Raise UnicodeEncodeError
  | JList _ | JDict _ => Ok (repr_container v)
  end.

(** [urllib.urlopen(url)]: a network failure is an [IOError]. *)
Definition urlopen (url : string) : M body :=
  fun '(self, w) =>
    let r := net (net_calls w) url in
    let w' := mkWorld (seq_num_txt w) (S (net_calls w))
                      (trace w ++ [EvUrlopen url r])%list in
    match r with
    | NetworkFailure => (Raise IOError, (self, w'))
    | Response b => (Ok b, (self, w'))
    end.

(** [get_response]: the [for] loop over [xrange(max_try)]; [None] is
    [JNull]. *)
Fixpoint get_response (url_api : string) (max_try : nat) : M json :=
  match max_try with
  | O => ret JNull
  | S tries =>
      (response <- urlopen url_api ;;
       match json_load response with
       | Raise ValueError =>
           print "Cannot parse response." ;;
           sleep 60 ;;
           get_response url_api tries
       | Raise e => raise e
       | Ok games_json =>
           has_result <- lift (py_contains "result" games_json) ;;
           if negb has_result then
             print "Invalid json string." ;;
             sleep 60 ;;
             get_response url_api tries
           else ret games_json
       end)%io
  end.

(** The iterable of the inner loop of [run]:
    [response_json['result']['matches']]. *)
Definition response_matches (response_json : json) : result (list json) :=
  (r <- py_getitem response_json "result" ;;
   ms <- py_getitem r "matches" ;;
   py_iter ms)%res.

(** The inner loop of [run], over the matches of one response. *)
Fixpoint process_matches (matches : list json) : M unit :=
  match matches with
  | [] => ret tt
  | match_ :: rest =>
      (match_id <- lift (py_getitem match_ "match_id") ;;
       ok <- lift (valid match_) ;;
       (if ok : bool then
          text <- lift (py_str match_id) ;;
          out_file_write (text ++ String "010" "")
        else ret tt) ;;
       seq <- lift (py_getitem match_ "match_seq_num") ;;
       next <- lift (py_add_int seq 1) ;;
       set_seq_num next ;;
       process_matches rest)%io
  end.

(** The outer loop of [run], over [range(chunks + 1)]; [break] ends it. *)
Fixpoint run_loop (chunks remainder : Z) (indices : list Z) : M unit :=
  match indices with
  | [] => ret tt
  | i :: rest =>
      (self <- get_self ;;
       let url := get_url self (if i =? chunks then remainder else 100) in
       response_json <- get_response url 10 ;;
       if negb (py_truthy response_json) then ret tt
       else
         matches <- lift (response_matches response_json) ;;
         process_matches matches ;;
         print ("Processed " ++ str_int ((i + 1) * 100) ++ " games") ;;
         run_loop chunks remainder rest)%io
  end.

(** [run] from the batches [indices] on: the rest of the outer loop and
    what follows it.  [run] has no [return], so its value is [None]. *)
Definition run_from (chunks remainder : Z) (indices : list Z) : M json :=
  (run_loop chunks remainder indices ;;
   save_sequence_number ;;
   ret JNull)%io.

(** [SteamMiner.run] *)
Definition run : M json :=
  (self <- get_self ;;
   print ("Start mining: " ++ str_int (seq_num self)) ;;
   let chunks := games_number self / 100 in
   let remainder := games_number self - chunks * 100 in
   run_from chunks remainder (py_range (chunks + 1)))%io.

End Miner.

(* ================================================================== *)
(** ** The command line *)

(** What [main] is started with: the value of [STEAM_API_KEY] in the
    environment if it is set, [sys.argv[0]], the arguments after it, and
    whether [open(sys.argv[1], "at")] succeeds. *)
Record process : Type := mkProcess {
  environ_key : option string;
  argv0 : string;
  args : list string;
  out_file_opens : bool
}.

(** How [main] ends: it returns, [sys.exit] is called with a message, or
    an exception that nothing catches ends the process. *)
Inductive ending : Type :=
| Finished
| SystemExit (message : string)
| Traceback (e : exn).

Section Main.

Variable net : transport.
Variable repr_container : json -> string.

Definition main (p : process) (w : world) : ending * world :=
  match environ_key p with
  | None => (SystemExit "Please set API_KEY environment variable.", w)
  | Some key =>
      match args p with
      | _ :: number_of_games :: _ =>
          if negb (out_file_opens p) then
            (SystemExit "Invalid output file", w)
          else
            match py_int number_of_games with
            | Raise ValueError => (SystemExit "Invalid number of games", w)
            | Raise e => (Traceback e, w)
            | Ok games_number =>
                match init games_number key w with
                | Raise e => (Traceback e, w)
                | Ok miner =>
                    match run net repr_container (miner, w) with
                    | (Ok _, (_, w')) => (Finished, w')
                    | (Raise e, (_, w')) => (Traceback e, w')
                    end
                end
            end
      | _ =>
          (SystemExit ("Usage: " ++ argv0 p
                       ++ " <output_file> <number_of_games>"), w)
      end
  end.

End Main.

(* ================================================================== *)
(** ** Vocabulary of the statements *)

(** *** The validity filter *)

(** A decoded JSON object. *)
Definition is_dict (v : json) : Prop :=
  match v with
  | JDict _ => True
  | _ => False
  end.

(** The test of the loop of [valid] on one player: its status compares
    equal to 1, the value also taken for a player that has none. *)
Definition counts_as_leaver (p : json) : bool :=
  match py_get p "leaver_status" (JInt 1) with
  | Ok s => py_eq_int s 1
  | Raise _ => false
  end.

(** *** Text *)

Fixpoint string_forallb (f : ascii -> bool) (s : string) : bool :=
  match s with
  | EmptyString => true
  | String c s' => f c && string_forallb f s'
  end.

Definition is_digit (c : ascii) : bool :=
  match NilEmpty.uint_of_string (String c EmptyString) with
  | Some _ => true
  | None => false
  end.

(** A text without white space. *)
Definition no_space (s : string) : bool :=
  string_forallb (fun c => negb (is_space c)) s.

(** *** Traces *)

(** The URLs opened, in order, according to a trace. *)
Fixpoint requested_urls (tr : list event) : list string :=
  match tr with
  | [] => []
  | EvUrlopen url _ :: tr' => url :: requested_urls tr'
  | _ :: tr' => requested_urls tr'
  end.

(** The pauses made, in order, according to a trace. *)
Fixpoint pauses (tr : list event) : list Z :=
  match tr with
  | [] => []
  | EvSleep n :: tr' => n :: pauses tr'
  | _ :: tr' => pauses tr'
  end.

(** *** Retries *)

(** A reply that [get_response] answers with a pause and another try:
    a body that is not JSON, or a decoded object, list or string that
    does not contain ['result'].  (On decoded [null], a number or a
    boolean the test [in] itself raises [TypeError].) *)
Definition is_transient (r : reply) : bool :=
  match r with
  | NetworkFailure => false
  | Response NotJson => true
  | Response (Json j) =>
      match py_contains "result" j with
      | Ok false => true
      | _ => false
      end
  end.

(** The line [get_response] prints for such a reply. *)
Definition failure_message (r : reply) : string :=
  match r with
  | Response (Json _) => "Invalid json string."
  | _ => "Cannot parse response."
  end.

(** What [k] failed tries of one URL leave in the trace, the first of
    them being call number [n0]: the call, the message, the pause. *)
Fixpoint retries (net : transport) (url : string) (n0 k : nat) : list event :=
  match k with
  | O => []
  | S k' =>
      EvUrlopen url (net n0 url) :: EvPrint (failure_message (net n0 url))
        :: EvSleep 60 :: retries net url (S n0) k'
  end.

Definition after_retries (net : transport) (url : string) (k : nat)
    (w : world) : world :=
  mkWorld (seq_num_txt w) (net_calls w + k)
          (trace w ++ retries net url (net_calls w) k)%list.

(** The world once [seq_num.txt] holds the cursor [c]. *)
Definition saved (c : Z) (w : world) : world :=
  mkWorld (Some (str_int c)) (net_calls w) (trace w).

(** *** The batch plan *)

(** The size of the request of batch [i], as [run] passes it to
    [get_url]. *)
Definition batch_size (chunks remainder i : Z) : Z :=
  if i =? chunks then remainder else 100.

(** The sizes [run] plans to request for [games_number] games. *)
Definition batch_plan (games_number : Z) : list Z :=
  let chunks := games_number / 100 in
  let remainder := games_number - chunks * 100 in
  map (batch_size chunks remainder) (py_range (chunks + 1)).

(** *** The cursor *)

(** The sequence number of a record (0 when it has none). *)
Definition seq_of (r : json) : Z :=
  match py_getitem r "match_seq_num" with
  | Ok (JInt n) => n
  | _ => 0
  end.

(** A record the inner loop of [run] handles without an exception: it
    has an identifier, [valid] returns on it, the identifier can be
    written if it must be, and its sequence number is an integer. *)
Definition ready (repr_container : json -> string) (r : json) : Prop :=
  exists id b n,
    py_getitem r "match_id" = Ok id
    /\ valid r = Ok b
    /\ (b = true -> exists text, py_str repr_container id = Ok text)
    /\ py_getitem r "match_seq_num" = Ok (JInt n).

(** The miner with its cursor moved to [n]. *)
Definition with_seq_num (self : SteamMiner) (n : Z) : SteamMiner :=
  mkMiner (games_number self) (api_key self) n.

(** The cursor after the records [rs], from the cursor [c]. *)
Definition cursor_after (c : Z) (rs : list json) : Z :=
  fold_left (fun _ r => seq_of r + 1) rs c.

(** The largest sequence number of a non-empty list of records. *)
Definition max_seq (rs : list json) : Z :=
  fold_right Z.max (seq_of (hd JNull rs)) (map seq_of rs).

(** What the inner loop of [run] writes for one record. *)
Definition line_of (repr_container : json -> string) (r : json)
  : list event :=
  match valid r, py_getitem r "match_id" with
  | Ok true, Ok id =>
      match py_str repr_container id with
      | Ok text => [EvWrite (text ++ String "010" "")]
      | Raise _ => []
      end
  | _, _ => []
  end.

(** The network answers the next calls, whatever the URL, with
    well-formed responses that carry the [batches], one after the other. *)
Definition serves (net : transport) (n0 : nat) (batches : list (list json))
  : Prop :=
  forall k b url,
    nth_error batches k = Some b ->
    exists j, net (n0 + k)%nat url = Response (Json j)
              /\ py_contains "result" j = Ok true
              /\ response_matches j = Ok b.

(** A reply that cannot make [run] raise: the network did not fail, and
    decoded JSON is either an object, list or string without ['result'],
    or a response whose records are all [ready]. *)
Definition good_reply (repr_container : json -> string) (r : reply) : Prop :=
  match r with
  | NetworkFailure => False
  | Response NotJson => True
  | Response (Json j) =>
      py_contains "result" j = Ok false
      \/ (py_contains "result" j = Ok true
          /\ exists ms, response_matches j = Ok ms
                        /\ Forall (ready repr_container) ms)
  end.

(** *** Resuming *)

(** A record whose sequence number is an integer not below [c]. *)
Definition seq_ge (c : Z) (r : json) : Prop :=
  exists n, py_getitem r "match_seq_num" = Ok (JInt n) /\ c <= n.

(** The provider keeps to [start_at_match_seq_num]: a response to a URL
    of the miner with key [key] carries no record below the cursor the URL
    names. *)
Definition honest (net : transport) (key : string) : Prop :=
  forall i self n j ms,
    api_key self = key ->
    net i (get_url self n) = Response (Json j) ->
    response_matches j = Ok ms ->
    Forall (seq_ge (seq_num self)) ms.

(** A call whose response, if it carries records, carries none below
    [c]. *)
Definition event_from (c : Z) (e : event) : Prop :=
  match e with
  | EvUrlopen _ (Response (Json j)) =>
      forall ms, response_matches j = Ok ms -> Forall (seq_ge c) ms
  | _ => True
  end.

(** No call of the trace delivered a record below [c]. *)
Definition delivered_from (c : Z) (tr : list event) : Prop :=
  Forall (event_from c) tr.

(** The world a new process finds: the files stay, the trace is new. *)
Definition restart (w : world) : world := mkWorld (seq_num_txt w) 0 [].

(** What holds all along a run of the miner with key [key] resumed at
    [c]: the cursor has not gone below [c], and no record below [c] was
    delivered. *)
Definition resumed (key : string) (c : Z) (s : SteamMiner * world) : Prop :=
  api_key (fst s) = key
  /\ c <= seq_num (fst s)
  /\ delivered_from c (trace (snd s)).

(** *** What a run leaves behind *)

(** The texts written to the output file, in order, according to a
    trace. *)
Fixpoint written (tr : list event) : list string :=
  match tr with
  | [] => []
  | EvWrite text :: tr' => text :: written tr'
  | _ :: tr' => written tr'
  end.

(** The records a trace shows the inner loop of [run] was given: those of
    the responses that [get_response] returned, the decoded responses
    with ['result'] whose matches can be iterated. *)
Fixpoint delivered_records (tr : list event) : list json :=
  match tr with
  | [] => []
  | EvUrlopen _ (Response (Json j)) :: tr' =>
      match py_contains "result" j, response_matches j with
      | Ok true, Ok ms => (ms ++ delivered_records tr')%list
      | _, _ => delivered_records tr'
      end
  | _ :: tr' => delivered_records tr'
  end.

(** The identifier of a record (0 when it has no integer identifier). *)
Definition id_of (r : json) : Z :=
  match py_getitem r "match_id" with
  | Ok (JInt n) => n
  | _ => 0
  end.

(** [valid] returns [True] on the record. *)
Definition is_valid (r : json) : bool :=
  match valid r with
  | Ok true => true
  | _ => false
  end.

(** The code [m] leaves the observation [f] of the miner and the world as
    it found it, however it ends. *)
Definition keeps {A X : Type} (f : SteamMiner * world -> X) (m : M A) : Prop :=
  forall s, f (snd (m s)) = f s.

(** What only the end of [run] may change: the count and the key of the
    miner, and the content of [seq_num.txt]. *)
Definition frame (s : SteamMiner * world) : Z * string * option string :=
  (games_number (fst s), api_key (fst s), seq_num_txt (snd s)).

(** The record has an integer identifier. *)
Definition has_int_id (r : json) : Prop :=
  exists n, py_getitem r "match_id" = Ok (JInt n).

(* ================================================================== *)
(** ** Sample data *)

(** A player entry as the provider sends it. *)
Definition player (leaver_status : Z) : json :=
  JDict [("account_id", JInt 4294967295); ("player_slot", JInt 0);
         ("hero_id", JInt 14); ("leaver_status", JInt leaver_status)].

(** A player entry without the [leaver_status] field. *)
Definition player_without_status : json :=
  JDict [("account_id", JInt 4294967295); ("player_slot", JInt 0);
         ("hero_id", JInt 14)].

(** A match record with ten human players in game mode 22. *)
Definition match_record (id seq duration : Z) (players : json) : json :=
  JDict [("players", players); ("duration", JInt duration);
         ("match_id", JInt id); ("match_seq_num", JInt seq);
         ("human_players", JInt 10); ("game_mode", JInt 22)].

(** A match record without the [players] field. *)
Definition match_without_players : json :=
  JDict [("duration", JInt 2400); ("match_id", JInt 7);
         ("match_seq_num", JInt 70); ("human_players", JInt 10);
         ("game_mode", JInt 22)].

(** Three records in the provider's order, the first with a leaver. *)
Definition sample_records : list json :=
  [match_record 100 10 2400 (JList [player 0; player 1]);
   match_record 101 11 2400 (JList [player 0; player 0]);
   match_record 102 12 2400 (JList [player 0; player 0])].

(** Two records that arrive with the larger sequence number first. *)
Definition unordered_records : list json :=
  [match_record 102 12 2400 (JList [player 0]);
   match_record 100 10 2400 (JList [player 0])].

(** The matches a provider holds: the three above and three more. *)
Definition sample_db : list json :=
  sample_records ++
  [match_record 103 13 2400 (JList [player 0; player 0]);
   match_record 104 14 900 (JList [player 0; player 0]);
   match_record 105 15 2400 (JList [player 0; player 0])].

(** A well-formed response with the matches [ms]. *)
Definition response_with (ms : list json) : reply :=
  Response (Json (JDict [("result",
                          JDict [("status", JInt 1); ("matches", JList ms)])])).

(** A decoded response without ['result']: what the provider sends when
    it refuses a request. *)
Definition response_without_result : reply :=
  Response (Json (JDict [("error", JStr "Service Unavailable")])).

(** A network that plays a script, whatever the URL, and then answers
    [default]. *)
Definition scripted (script : list reply) (default : reply) : transport :=
  fun n _ => nth n script default.

(** A provider that has no match to send. *)
Definition no_more_data : transport := scripted [] (response_with []).

(** A provider that fails in both retried ways, ten times and more. *)
Definition flaky : transport :=
  scripted [Response NotJson; response_without_result] (Response NotJson).

(** A network that is down. *)
Definition network_down : transport := scripted [] NetworkFailure.

(** A text for the identifiers that are lists or dicts. *)
Definition sample_repr (v : json) : string := "[...]".

(** A world where [seq_num.txt] holds the line [10]. *)
Definition sample_world : world :=
  mkWorld (Some ("10" ++ String "010" "")) 0 [].

(** The miner that [__init__] builds in that world. *)
Definition sample_miner (games : Z) : SteamMiner := mkMiner games "KEY" 10.

(** *** A provider that reads the URL *)

Fixpoint drop_prefix (p s : string) : option string :=
  match p, s with
  | EmptyString, _ => Some s
  | String a p', String b s' =>
      if Ascii.eqb a b then drop_prefix p' s' else None
  | String _ _, EmptyString => None
  end.

(** The text that follows the first occurrence of [marker] in [s]. *)
Fixpoint text_after (marker s : string) : option string :=
  match drop_prefix marker s with
  | Some rest => Some rest
  | None =>
      match s with
      | EmptyString => None
      | String _ s' => text_after marker s'
      end
  end.

Definition is_number_char (c : ascii) : bool :=
  is_digit c || Ascii.eqb c "-".

Fixpoint number_prefix (s : string) : string :=
  match s with
  | EmptyString => EmptyString
  | String c s' =>
      if is_number_char c then String c (number_prefix s') else EmptyString
  end.

(** The integer value of the query parameter that [marker] introduces. *)
Definition query_int (marker url : string) : result Z :=
  match text_after marker url with
  | Some text => py_int (number_prefix text)
  | None => Raise ValueError
  end.

(** The record has an integer sequence number, not below [k]. *)
Definition has_seq_from (k : Z) (r : json) : bool :=
  match py_getitem r "match_seq_num" with
  | Ok (JInt n) => k <=? n
  | _ => false
  end.

(** A provider over the matches [db]: it answers a URL with the first
    [matches_requested] matches of [db] from [start_at_match_seq_num]
    on. *)
Definition provider (db : list json) : transport :=
  fun _ url =>
    match query_int SEQ_STRING url, query_int REQUESTS_STRING url with
    | Ok k, Ok n =>
        response_with (firstn (Z.to_nat n) (filter (has_seq_from k) db))
    | _, _ => Response NotJson
    end.

(** A command line with a key, an output file that opens and a count. *)
Definition sample_process (count : string) : process :=
  mkProcess (Some "KEY") "steam_miner.py" ["matches.txt"; count] true.

(* ================================================================== *)
(** ** Properties of the validity filter *)

(** The loop over the players stops with [return False] at the first
    player whose status compares equal to 1, whatever follows. *)
Lemma leaver_found_at (pre post : list json) (p s : json) :
  Forall is_dict pre ->
  py_get p "leaver_status" (JInt 1) = Ok s ->
  py_eq_int s 1 = true ->
  leaver_found (pre ++ p :: post) = Ok true.
Proof.
  intros Hpre Hp Hs. induction Hpre as [|q pre Hq _ IH]; simpl.
  - rewrite Hp. simpl. now rewrite Hs.
  - destruct q; try contradiction. simpl.
    destruct (dict_get "leaver_status" d) as [x|]; simpl.
    + destruct (py_eq_int x 1); [reflexivity | exact IH].
    + reflexivity.
Qed.

Lemma valid_leaver (m : json) (pre post : list json) (p s : json) :
  py_getitem m "players" = Ok (JList (pre ++ p :: post)) ->
  Forall is_dict pre ->
  py_get p "leaver_status" (JInt 1) = Ok s ->
  py_eq_int s 1 = true ->
  valid m = Ok false.
Proof.
  intros Hm Hpre Hp Hs. unfold valid. rewrite Hm. simpl.
  now rewrite (leaver_found_at pre post p s Hpre Hp Hs).
Qed.

Lemma leaver_found_existsb (ps : list json) :
  Forall is_dict ps -> leaver_found ps = Ok (existsb counts_as_leaver ps).
Proof.
  induction 1 as [|q ps Hq _ IH]; simpl; [reflexivity|].
  destruct q; try contradiction. unfold counts_as_leaver. simpl.
  destruct (dict_get "leaver_status" d) as [x|]; simpl.
  - destruct (py_eq_int x 1); [reflexivity | exact IH].
  - reflexivity.
Qed.

(** What the loop of [valid] does on a record whose players are player
    objects: it rejects the record exactly when some player's leaver
    status is the code 1 (an absent status counts as 1); otherwise the
    remaining criteria decide. *)
Theorem valid_rejects_exactly_status_1 (m : json) (ps : list json) :
  py_getitem m "players" = Ok (JList ps) ->
  Forall is_dict ps ->
  valid m = if existsb counts_as_leaver ps then Ok false
            else valid_after_players m.
Proof.
  intros Hm Hps. unfold valid. rewrite Hm. simpl.
  rewrite (leaver_found_existsb ps Hps). simpl.
  now destruct (existsb counts_as_leaver ps).
Qed.

Lemma valid_rejects_exactly_status_1_witness :
  valid (match_record 1 10 2400 (JList [player 0; player 1; player 3]))
    = Ok false
  /\ valid (match_record 1 10 2400 (JList [player 0; player 3])) = Ok true.
Proof.
  split.
  - rewrite (valid_rejects_exactly_status_1 _
               [player 0; player 1; player 3]);
      [reflexivity | reflexivity | repeat constructor].
  - rewrite (valid_rejects_exactly_status_1 _ [player 0; player 3]);
      [reflexivity | reflexivity | repeat constructor].
Defined.

(** No status code is the only one [valid] lets through: a record whose
    players all carry 0 is valid, and so is one whose players all carry
    2. *)
Lemma valid_accepts_two_status_codes :
  valid (match_record 1 10 2400 (JList [player 0])) = Ok true
  /\ valid (match_record 2 11 2400 (JList [player 2])) = Ok true
  /\ ~ (exists did_not_leave : Z,
          forall (m : json) (ps : list json) (p : json) (s : Z),
            py_getitem m "players" = Ok (JList ps) ->
            In p ps ->
            py_getitem p "leaver_status" = Ok (JInt s) ->
            s <> did_not_leave ->
            valid m = Ok false).
Proof.
  split; [reflexivity|]. split; [reflexivity|].
  intros [c H].
  destruct (Z.eq_dec c 0) as [->|Hc].
  - specialize (H (match_record 2 11 2400 (JList [player 2]))
                  [player 2] (player 2) 2 eq_refl (or_introl eq_refl) eq_refl).
    assert (Hne : 2 <> 0) by lia. specialize (H Hne). discriminate H.
  - specialize (H (match_record 1 10 2400 (JList [player 0]))
                  [player 0] (player 0) 0 eq_refl (or_introl eq_refl) eq_refl).
    assert (Hne : 0 <> c) by lia. specialize (H Hne). discriminate H.
Qed.

(** C1 at leaver status 3: [valid] is documented to accept a game with
    "no leavers", and the claim asks that every status but the one for
    "did not leave" rejects the record; the loop tests [== 1] only.  Of
    the statuses 0 to 6 of a second player it rejects status 1 alone, so
    a game with an abandon (2, 3, 4, 5 or 6) is accepted; and so is a
    game with any status other than 1, whatever the number. *)
Lemma valid_accepts_abandoned_players :
  map (fun status =>
         valid (match_record 1 10 2400 (JList [player 0; player status])))
      [0; 1; 2; 3; 4; 5; 6]
  = [Ok true; Ok false; Ok true; Ok true; Ok true; Ok true; Ok true]
  /\ (forall status,
        valid (match_record 1 10 2400 (JList [player 0; player status]))
        = Ok (negb (status =? 1))).
Proof.
  split; [vm_compute; reflexivity|].
  intros status. unfold valid. cbn.
  destruct (status =? 1); reflexivity.
Qed.

(** C10: a record with a player entry that has no [leaver_status] field is
    rejected: the absent status is read as 1, the code the loop rejects. *)
Theorem valid_rejects_missing_status
    (m : json) (ps : list json) (d : list (string * json)) :
  py_getitem m "players" = Ok (JList ps) ->
  Forall is_dict ps ->
  In (JDict d) ps ->
  dict_get "leaver_status" d = None ->
  valid m = Ok false.
Proof.
  intros Hm Hps Hin Hd.
  destruct (in_split _ _ Hin) as (pre & post & ->).
  apply Forall_app in Hps. destruct Hps as [Hpre _].
  apply (valid_leaver m pre post (JDict d) (JInt 1) Hm Hpre).
  - simpl. now rewrite Hd.
  - reflexivity.
Qed.

Lemma valid_rejects_missing_status_witness :
  valid (match_record 1 10 2400
           (JList [player 0; player_without_status; player 0])) = Ok false.
Proof.
  apply (valid_rejects_missing_status _
           [player 0; player_without_status; player 0]
           [("account_id", JInt 4294967295); ("player_slot", JInt 0);
            ("hero_id", JInt 14)]).
  - reflexivity.
  - repeat constructor.
  - right. left. reflexivity.
  - reflexivity.
Defined.

(** C7 (amended): a record whose [players] value is empty has no leaver,
    so [valid] returns on it what the remaining criteria decide.  (A
    record without the [players] field is another matter: indexing it
    raises [KeyError].) *)
Theorem valid_empty_players (m ps : json) :
  py_getitem m "players" = Ok ps ->
  py_iter ps = Ok [] ->
  valid m = valid_after_players m.
Proof.
  intros Hm Hps. unfold valid. rewrite Hm. simpl. rewrite Hps. reflexivity.
Qed.

Lemma valid_empty_players_witness :
  valid (match_record 1 10 2400 (JList [])) = Ok true
  /\ valid (match_record 1 10 600 (JList [])) = Ok false.
Proof.
  split.
  - rewrite (valid_empty_players _ (JList [])); reflexivity.
  - rewrite (valid_empty_players _ (JList [])); reflexivity.
Defined.

(** C7 as stated fails: [valid] indexes the record by ['players'], so a
    record without the field raises [KeyError], although it meets the
    three remaining criteria. *)
Lemma valid_without_players_raises :
  py_getitem match_without_players "players" = Raise KeyError
  /\ valid_after_players match_without_players = Ok true
  /\ valid match_without_players = Raise KeyError
  /\ (forall d, dict_get "players" d = None ->
                valid (JDict d) = Raise KeyError).
Proof.
  repeat split; try reflexivity.
  intros d Hd. unfold valid. simpl. now rewrite Hd.
Qed.

(** C8: a record shorter than 1200 seconds is rejected, and a record of
    exactly 1200 seconds that meets the other criteria is accepted: with
    no leaver, ten human players and game mode 22, [valid] is the test
    [1200 <= duration]. *)
Theorem valid_duration_threshold (m : json) (ps : list json) (d : Z) :
  py_getitem m "players" = Ok (JList ps) ->
  Forall is_dict ps ->
  py_getitem m "duration" = Ok (JInt d) ->
  (d < 1200 -> valid m = Ok false)
  /\ (existsb counts_as_leaver ps = false ->
      py_getitem m "human_players" = Ok (JInt 10) ->
      py_getitem m "game_mode" = Ok (JInt 22) ->
      valid m = Ok (1200 <=? d)
      /\ (d = 1200 -> valid m = Ok true)).
Proof.
  intros Hm Hps Hd.
  unfold valid. rewrite Hm. simpl.
  rewrite (leaver_found_existsb ps Hps). simpl.
  unfold valid_after_players, MIN_DURATION. rewrite Hd. simpl.
  split.
  - intros Hlt. destruct (existsb counts_as_leaver ps); [reflexivity|].
    apply Z.ltb_lt in Hlt. now rewrite Hlt.
  - intros -> Hh Hg. rewrite Hh, Hg. simpl.
    split.
    + rewrite Z.leb_antisym. now destruct (d <? 1200).
    + intros ->. reflexivity.
Qed.

Lemma valid_duration_threshold_witness :
  valid (match_record 1 10 1199 (JList [player 0; player 0])) = Ok false
  /\ valid (match_record 1 10 1200 (JList [player 0; player 0])) = Ok true.
Proof.
  split.
  - destruct (valid_duration_threshold
                (match_record 1 10 1199 (JList [player 0; player 0]))
                [player 0; player 0] 1199 eq_refl
                ltac:(repeat constructor) eq_refl) as [H _].
    apply H. lia.
  - destruct (valid_duration_threshold
                (match_record 1 10 1200 (JList [player 0; player 0]))
                [player 0; player 0] 1200 eq_refl
                ltac:(repeat constructor) eq_refl) as [_ H].
    destruct (H eq_refl eq_refl eq_refl) as [_ H']. apply H'. reflexivity.
Defined.

(* ================================================================== *)
(** ** Retries of [get_response] *)

Section Retries.

Variable net : transport.

Lemma after_retries_0 url w : after_retries net url 0 w = w.
Proof.
  destruct w as [f n t]. unfold after_retries. simpl.
  now rewrite Nat.add_0_r, app_nil_r.
Qed.

Lemma after_retries_S url k w :
  after_retries net url (S k) w =
  after_retries net url k
    (mkWorld (seq_num_txt w) (S (net_calls w))
       (trace w ++ [EvUrlopen url (net (net_calls w) url);
                    EvPrint (failure_message (net (net_calls w) url));
                    EvSleep 60])).
Proof.
  unfold after_retries. simpl. rewrite <- app_assoc. simpl.
  now rewrite Nat.add_succ_r.
Qed.

(** One failed try: the call, the message, a pause of 60, and the loop
    goes on with one try less. *)
Lemma get_response_failed_try url tries self w :
  is_transient (net (net_calls w) url) = true ->
  get_response net url (S tries) (self, w) =
  get_response net url tries (self, after_retries net url 1 w).
Proof.
  intros Ht. rewrite after_retries_S, after_retries_0.
  simpl get_response. unfold bind at 1. unfold urlopen.
  destruct (net (net_calls w) url) as [|[|j]]; simpl in *.
  - discriminate.
  - unfold bind, print, sleep, log. simpl.
    now rewrite <- !app_assoc.
  - destruct (py_contains "result" j) as [[|]|]; try discriminate.
    unfold bind, lift, print, sleep, log. simpl.
    now rewrite <- !app_assoc.
Qed.

Lemma get_response_failed_tries url k tries self w :
  (forall i, (i < k)%nat ->
             is_transient (net (net_calls w + i)%nat url) = true) ->
  get_response net url (k + tries) (self, w) =
  get_response net url tries (self, after_retries net url k w).
Proof.
  revert w. induction k as [|k IH]; intros w Hk.
  - now rewrite after_retries_0.
  - change (S k + tries)%nat with (S (k + tries)).
    rewrite get_response_failed_try
      by (specialize (Hk O); rewrite Nat.add_0_r in Hk; apply Hk; lia).
    rewrite after_retries_S, after_retries_S, after_retries_0. simpl.
    apply IH. intros i Hi. simpl. specialize (Hk (S i)).
    rewrite Nat.add_succ_r in Hk. apply Hk. lia.
Qed.

End Retries.

(* ================================================================== *)
(** ** Batches that fail, batches that are empty *)

Section Batches.

Variable net : transport.
Variable repr_container : json -> string.

Lemma get_response_self url tries self w :
  fst (snd (get_response net url tries (self, w))) = self.
Proof.
  revert w. induction tries as [|tries IH]; intros w; [reflexivity|].
  simpl. unfold bind at 1. unfold urlopen.
  destruct (net (net_calls w) url) as [|[|j]]; simpl; [reflexivity| |].
  - unfold bind, print, sleep. simpl. apply IH.
  - unfold bind at 1. unfold lift.
    destruct (py_contains "result" j) as [[|]|]; simpl; try reflexivity.
    unfold bind, print, sleep. simpl. apply IH.
Qed.

Lemma response_matches_truthy j ms :
  response_matches j = Ok ms -> py_truthy j = true.
Proof.
  unfold response_matches. destruct j; simpl; try discriminate.
  destruct d; [discriminate | reflexivity].
Qed.

(** One turn of the outer loop of [run]. *)
Lemma run_loop_cons chunks remainder i rest self w :
  run_loop net repr_container chunks remainder (i :: rest) (self, w) =
  match get_response net (get_url self (batch_size chunks remainder i)) 10
          (self, w) with
  | (Ok response_json, s1) =>
      if negb (py_truthy response_json) then (Ok tt, s1)
      else
        (matches <- lift (response_matches response_json) ;;
         process_matches repr_container matches ;;
         print ("Processed " ++ str_int ((i + 1) * 100) ++ " games") ;;
         run_loop net repr_container chunks remainder rest)%io s1
  | (Raise e, s1) => (Raise e, s1)
  end.
Proof.
  cbn [run_loop]. unfold bind at 1. unfold get_self. cbn [fst].
  unfold bind at 1. unfold batch_size.
  destruct (get_response net _ 10 (self, w)) as [[j|e] s1];
    [destruct (negb (py_truthy j))|]; reflexivity.
Qed.

(** C3 (amended): within a batch, each response that is not JSON and each
    decoded object, list or string that does not contain ['result'] costs
    a pause of 60 and one of the 10 tries of that batch: after [k] of
    them the miner has made [k] calls and [k] pauses and has [10 - k]
    tries left.  When all 10 tries fail so, the loop ends, the cursor is
    saved and [run] returns without an error and without another request.
    (A network failure is not among the retried failures, and neither is
    a decoded [null], number or boolean.) *)
Theorem transient_failures_back_off_then_stop
    (chunks remainder i : Z) (rest : list Z) (self : SteamMiner) (w : world)
    (k : nat) :
  let url := get_url self (batch_size chunks remainder i) in
  (k <= 10)%nat ->
  (forall n, (n < k)%nat ->
             is_transient (net (net_calls w + n)%nat url) = true) ->
  get_response net url 10 (self, w) =
    get_response net url (10 - k) (self, after_retries net url k w)
  /\ pauses (retries net url (net_calls w) k) = repeat 60 k
  /\ (k = 10%nat ->
      run_from net repr_container chunks remainder (i :: rest) (self, w) =
        (Ok JNull,
         (self, saved (seq_num self) (after_retries net url 10 w)))).
Proof.
  intros url Hk Ht. split; [|split].
  - replace 10%nat with (k + (10 - k))%nat at 1 by lia.
    now apply get_response_failed_tries.
  - clear Ht Hk. generalize (net_calls w) as n0.
    induction k as [|k' IH]; intros n0; simpl; [reflexivity|].
    now rewrite IH.
  - intros ->.
    assert (E : get_response net url 10 (self, w) =
                (Ok JNull, (self, after_retries net url 10 w))).
    { change 10%nat with (10 + 0)%nat at 1.
      now rewrite get_response_failed_tries. }
    unfold run_from, bind. rewrite run_loop_cons. fold url. rewrite E.
    reflexivity.
Qed.

(** A batch whose response carries no match: nothing is processed, the
    progress line is printed and the loop goes on. *)
Lemma run_loop_empty_batch chunks remainder i rest self w response_json s1 :
  get_response net (get_url self (batch_size chunks remainder i)) 10 (self, w)
    = (Ok response_json, s1) ->
  response_matches response_json = Ok [] ->
  run_loop net repr_container chunks remainder (i :: rest) (self, w) =
  (print ("Processed " ++ str_int ((i + 1) * 100) ++ " games") ;;
   run_loop net repr_container chunks remainder rest)%io s1.
Proof.
  intros Hg Hm. rewrite run_loop_cons, Hg.
  rewrite (response_matches_truthy _ _ Hm). simpl negb. cbv iota.
  unfold bind at 1. unfold lift at 1. rewrite Hm.
  unfold bind at 1. reflexivity.
Qed.

(** C5 (amended): a successful response with no match does not end the
    loop.  The batch leaves the cursor where it was and writes no
    identifier; the miner prints its progress line and goes on with the
    next planned batch. *)
Theorem empty_batch_goes_on
    (chunks remainder i : Z) (rest : list Z) (self : SteamMiner) (w : world)
    (response_json : json) (s1 : SteamMiner * world) :
  get_response net (get_url self (batch_size chunks remainder i)) 10 (self, w)
    = (Ok response_json, s1) ->
  response_matches response_json = Ok [] ->
  fst s1 = self
  /\ run_loop net repr_container chunks remainder (i :: rest) (self, w) =
     (print ("Processed " ++ str_int ((i + 1) * 100) ++ " games") ;;
      run_loop net repr_container chunks remainder rest)%io s1.
Proof.
  intros Hg Hm. split.
  - rewrite <- (get_response_self
                  (get_url self (batch_size chunks remainder i)) 10 self w).
    now rewrite Hg.
  - now apply run_loop_empty_batch with (response_json := response_json).
Qed.

(** C9 (amended): [run] returns no summary.  Whenever it returns, its
    value is [None]; what it counted is visible only in what it printed,
    wrote and saved. *)
Theorem run_returns_None (s : SteamMiner * world) :
  fst (run net repr_container s) = Ok JNull
  \/ exists e, fst (run net repr_container s) = Raise e.
Proof.
  destruct s as [self w]. unfold run, run_from, bind, get_self, print.
  cbn [fst].
  destruct (run_loop net repr_container _ _ _ _) as [[[]|e] [self' w']].
  - left. reflexivity.
  - right. now exists e.
Qed.

End Batches.

Lemma transient_failures_back_off_then_stop_witness :
  run_from flaky sample_repr 2 50 [0; 1; 2] (sample_miner 250, sample_world)
  = (Ok JNull,
     (sample_miner 250,
      saved 10 (after_retries flaky (get_url (sample_miner 250) 100) 10
                  sample_world)))
  /\ pauses (retries flaky (get_url (sample_miner 250) 100) 0 10)
     = [60; 60; 60; 60; 60; 60; 60; 60; 60; 60].
Proof.
  assert (H : forall n, (n < 10)%nat ->
            is_transient
              (flaky (net_calls sample_world + n)%nat
                 (get_url (sample_miner 250) (batch_size 2 50 0))) = true).
  { intros n Hn. do 10 (destruct n as [|n]; [reflexivity|]). lia. }
  destruct (transient_failures_back_off_then_stop flaky sample_repr
              2 50 0 [1; 2] (sample_miner 250) sample_world 10
              (le_n 10) H) as (_ & Hp & Hr).
  split; [exact (Hr eq_refl) | exact Hp].
Defined.

(** C3 as stated fails for a network failure: [urlopen] raises
    [IOError] outside the [try] of [get_response], so the first failed
    call ends [run] with the error: no pause, no second try, and
    [seq_num.txt] is not written. *)
Lemma network_failure_is_not_retried :
  (forall net url tries self w,
     net (net_calls w) url = NetworkFailure ->
     fst (get_response net url (S tries) (self, w)) = Raise IOError)
  /\ (let '(r, (self', w')) :=
        run network_down sample_repr (sample_miner 250, sample_world) in
      r = Raise IOError
      /\ pauses (trace w') = []
      /\ net_calls w' = 1%nat
      /\ seq_num_txt w' = seq_num_txt sample_world).
Proof.
  split.
  - intros net url tries self w H. simpl. unfold bind, urlopen.
    now rewrite H.
  - vm_compute. repeat split.
Qed.

(** A decoded [null], number or boolean is not retried either: the test
    ['result' not in games_json] raises [TypeError] on it, outside any
    [try], so [run] ends with the error at the first call: no pause, no
    second try, and [seq_num.txt] is not written. *)
Lemma decoded_scalar_is_not_retried :
  map (fun j =>
         let '(r, (self', w')) :=
           run (scripted [] (Response (Json j))) sample_repr
               (sample_miner 250, sample_world) in
         (is_transient (Response (Json j)), r, pauses (trace w'),
          net_calls w', seq_num_txt w'))
      [JNull; JInt 7; JBool true]
  = [(false, Raise TypeError, [], 1%nat, seq_num_txt sample_world);
     (false, Raise TypeError, [], 1%nat, seq_num_txt sample_world);
     (false, Raise TypeError, [], 1%nat, seq_num_txt sample_world)].
Proof. vm_compute. reflexivity. Qed.

Lemma empty_batch_goes_on_witness :
  requested_urls
    (trace (snd (snd (run_loop no_more_data sample_repr 2 50 [0; 1; 2]
                        (sample_miner 250, sample_world)))))
  = [get_url (sample_miner 250) 100; get_url (sample_miner 250) 100;
     get_url (sample_miner 250) 50].
Proof.
  destruct (empty_batch_goes_on no_more_data sample_repr 2 50 0 [1; 2]
              (sample_miner 250) sample_world
              (JDict [("result",
                       JDict [("status", JInt 1); ("matches", JList [])])])
              (sample_miner 250,
               mkWorld (seq_num_txt sample_world) 1
                 [EvUrlopen (get_url (sample_miner 250) 100)
                    (response_with [])])
              eq_refl eq_refl) as [_ ->].
  vm_compute. reflexivity.
Defined.

(** C5 as stated fails: the provider answers the first batch with a
    well-formed empty result, and [run] still issues the two batches that
    remain of the 250 games planned. *)
Lemma empty_result_does_not_stop_run :
  no_more_data 0%nat (get_url (sample_miner 250) 100) = response_with []
  /\ response_matches
       (JDict [("result", JDict [("status", JInt 1); ("matches", JList [])])])
     = Ok []
  /\ requested_urls
       (trace (snd (snd (run no_more_data sample_repr
                           (sample_miner 250, sample_world)))))
     = [get_url (sample_miner 250) 100; get_url (sample_miner 250) 100;
        get_url (sample_miner 250) 50].
Proof. repeat split; vm_compute; reflexivity. Qed.

(** C9 as stated fails: [run] returns [None], which has none of the
    fields of a summary. *)
Lemma run_returns_no_summary :
  fst (run no_more_data sample_repr (sample_miner 250, sample_world))
  = Ok JNull
  /\ (forall field, py_getitem JNull field = Raise TypeError).
Proof. split; [vm_compute; reflexivity | reflexivity]. Qed.

(** C6 at 200 games: after the two requests of size 100 that the claim
    allows, [run] issues a third request, of size 0. *)
Lemma run_200_requests_size_0 :
  init 200 "KEY" sample_world = Ok (sample_miner 200)
  /\ batch_plan 200 = [100; 100; 0]
  /\ requested_urls
       (trace (snd (snd (run no_more_data sample_repr
                           (sample_miner 200, sample_world)))))
     = [get_url (sample_miner 200) 100; get_url (sample_miner 200) 100;
        get_url (sample_miner 200) 0].
Proof. repeat split; vm_compute; reflexivity. Qed.

(* ================================================================== *)
(** ** The cursor *)

Lemma cursor_after_app c rs1 rs2 :
  cursor_after c (rs1 ++ rs2) = cursor_after (cursor_after c rs1) rs2.
Proof. apply fold_left_app. Qed.

Lemma cursor_after_last c rs :
  rs <> [] -> cursor_after c rs = seq_of (last rs JNull) + 1.
Proof.
  intros Hne. destruct (exists_last Hne) as (pre & r & ->).
  rewrite cursor_after_app, last_last. reflexivity.
Qed.

Lemma fold_max_upper (a m : Z) (l : list Z) :
  a <= m -> Forall (fun x => x <= m) l -> fold_right Z.max a l <= m.
Proof. intros Ha. induction 1; simpl; lia. Qed.

Lemma fold_max_lower (a x : Z) (l : list Z) :
  In x l -> x <= fold_right Z.max a l.
Proof.
  induction l as [|y l IH]; simpl; [contradiction|].
  intros [->|Hin]; [lia | specialize (IH Hin); lia].
Qed.

Lemma max_seq_last rs :
  rs <> [] ->
  Forall (fun r => seq_of r <= seq_of (last rs JNull)) rs ->
  max_seq rs = seq_of (last rs JNull).
Proof.
  intros Hne Hle. unfold max_seq. apply Z.le_antisymm.
  - apply fold_max_upper.
    + destruct rs as [|r rs]; [contradiction|]. simpl hd.
      now inversion Hle.
    + rewrite Forall_map. exact Hle.
  - apply fold_max_lower. apply in_map.
    destruct (exists_last Hne) as (pre & r & ->).
    rewrite last_last. apply in_or_app. right. now left.
Qed.

Lemma with_seq_num_same self : with_seq_num self (seq_num self) = self.
Proof. now destruct self. Qed.

Section Cursor.

Variable net : transport.
Variable repr_container : json -> string.

(** One record: an identifier is written if the record is valid, and the
    cursor moves to the record's sequence number plus 1 either way. *)
Lemma process_matches_step r rest self w :
  ready repr_container r ->
  process_matches repr_container (r :: rest) (self, w) =
  process_matches repr_container rest
    (with_seq_num self (seq_of r + 1),
     mkWorld (seq_num_txt w) (net_calls w)
             (trace w ++ line_of repr_container r)).
Proof.
  intros (id & b & n & Hid & Hv & Hs & Hq).
  cbn [process_matches]. unfold seq_of, line_of. rewrite Hid, Hv, Hq.
  unfold bind at 1. unfold lift at 1. unfold bind at 1. unfold lift at 1.
  destruct b.
  - destruct (Hs eq_refl) as [text Ht]. rewrite Ht.
    unfold bind, lift, out_file_write, log, set_seq_num. simpl.
    reflexivity.
  - unfold bind, lift, ret, set_seq_num. simpl.
    rewrite app_nil_r. now destruct w.
Qed.

Lemma process_matches_ready rs self w :
  Forall (ready repr_container) rs ->
  process_matches repr_container rs (self, w) =
  (Ok tt,
   (with_seq_num self (cursor_after (seq_num self) rs),
    mkWorld (seq_num_txt w) (net_calls w)
            (trace w ++ flat_map (line_of repr_container) rs))).
Proof.
  intros H. revert self w. induction H as [|r rs Hr _ IH]; intros self w.
  - simpl. unfold ret. rewrite with_seq_num_same, app_nil_r.
    now destruct w.
  - rewrite process_matches_step by exact Hr. rewrite IH. simpl.
    now rewrite app_assoc.
Qed.

Lemma get_response_first_try url tries self w j :
  net (net_calls w) url = Response (Json j) ->
  py_contains "result" j = Ok true ->
  get_response net url (S tries) (self, w) =
  (Ok j, (self, mkWorld (seq_num_txt w) (S (net_calls w))
                   (trace w ++ [EvUrlopen url (Response (Json j))]))).
Proof.
  intros Hn Hc. cbn [get_response]. unfold bind at 1. unfold urlopen.
  rewrite Hn. simpl. unfold bind, lift. rewrite Hc. reflexivity.
Qed.

Lemma serves_tail n0 b bs : serves net n0 (b :: bs) -> serves net (S n0) bs.
Proof.
  intros H k b' url Hk. specialize (H (S k) b' url Hk).
  now rewrite Nat.add_succ_r in H.
Qed.

(** The outer loop over batches that all arrive at the first try: the
    cursor ends where the records, taken in one sequence, lead it. *)
Lemma run_loop_served chunks remainder indices :
  forall batches self w,
    List.length batches = List.length indices ->
    serves net (net_calls w) batches ->
    Forall (ready repr_container) (List.concat batches) ->
    exists w',
      run_loop net repr_container chunks remainder indices (self, w) =
        (Ok tt,
         (with_seq_num self (cursor_after (seq_num self) (List.concat batches)),
          w'))
      /\ seq_num_txt w' = seq_num_txt w.
Proof.
  induction indices as [|i rest IH]; intros batches self w Hlen Hsrv Hrs.
  - destruct batches; [|discriminate]. exists w. simpl.
    now rewrite with_seq_num_same.
  - destruct batches as [|b bs]; [discriminate|].
    destruct (Hsrv O b (get_url self (batch_size chunks remainder i))
                eq_refl) as (j & Hn & Hc & Hm).
    rewrite Nat.add_0_r in Hn.
    simpl in Hrs. apply Forall_app in Hrs. destruct Hrs as [Hb Hbs].
    rewrite run_loop_cons.
    rewrite (get_response_first_try _ 9 self w j Hn Hc).
    rewrite (response_matches_truthy _ _ Hm). simpl negb. cbv iota.
    unfold bind at 1. unfold lift at 1. rewrite Hm.
    unfold bind at 1. rewrite (process_matches_ready b _ _ Hb).
    unfold bind at 1. unfold print at 1.
    match goal with
    | |- context [run_loop _ _ _ _ rest (?self1, ?w1)] =>
        destruct (IH bs self1 w1) as (w' & E & Hf)
    end.
    + simpl in Hlen. now injection Hlen.
    + simpl. now apply serves_tail in Hsrv.
    + exact Hbs.
    + exists w'. rewrite E. split; [|exact Hf].
      simpl List.concat. rewrite cursor_after_app. reflexivity.
Qed.

End Cursor.

Ltac prove_ready :=
  repeat first
    [ apply Forall_nil
    | apply Forall_cons
    | (do 3 eexists;
       split; [reflexivity|];
       split; [reflexivity|];
       split; [intros _; eexists; reflexivity | reflexivity]) ].

(** C4 (amended): each record moves the cursor to its sequence number
    plus 1, whether [valid] accepts it or not; so after a run whose
    batches all arrive, the cursor, in memory and in [seq_num.txt], is the
    sequence number of the last record plus 1, however the records are
    cut into batches.  That is the largest sequence number plus 1 when no
    record exceeds the last one, as in the provider's ascending order. *)
Theorem cursor_follows_last_record
    (net : transport) (repr_container : json -> string)
    (self : SteamMiner) (w : world) (batches : list (list json)) :
  List.length batches
    = List.length (py_range (games_number self / 100 + 1)) ->
  serves net (net_calls w) batches ->
  Forall (ready repr_container) (List.concat batches) ->
  List.concat batches <> [] ->
  let records := List.concat batches in
  let cursor := seq_of (last records JNull) + 1 in
  (forall r self0 w0,
      In r records ->
      fst (snd (process_matches repr_container [r] (self0, w0)))
        = with_seq_num self0 (seq_of r + 1))
  /\ (exists w',
        run net repr_container (self, w)
          = (Ok JNull, (with_seq_num self cursor, w'))
        /\ seq_num_txt w' = Some (str_int cursor))
  /\ (Forall (fun r => seq_of r <= seq_of (last records JNull)) records ->
      cursor = max_seq records + 1).
Proof.
  intros Hlen Hsrv Hrs Hne records cursor. split; [|split].
  - intros r self0 w0 Hin.
    rewrite process_matches_step
      by (rewrite Forall_forall in Hrs; now apply Hrs).
    reflexivity.
  - unfold run. unfold bind at 1. unfold get_self at 1. cbn [fst].
    unfold bind at 1. unfold print at 1. unfold run_from.
    unfold bind at 1.
    destruct (run_loop_served net repr_container
                (games_number self / 100)
                (games_number self - games_number self / 100 * 100)
                (py_range (games_number self / 100 + 1))
                batches self
                (log (EvPrint ("Start mining: " ++ str_int (seq_num self))) w)
                Hlen Hsrv Hrs) as (w' & E & Hf).
    rewrite E. unfold bind, save_sequence_number, get_self,
      write_seq_num_txt, ret. cbn [fst snd seq_num with_seq_num].
    rewrite (cursor_after_last _ _ Hne). fold records. fold cursor.
    eexists. split; reflexivity.
  - intros Hle. unfold cursor. now rewrite (max_seq_last records Hne Hle).
Qed.

Lemma cursor_follows_last_record_witness :
  seq_num (fst (snd (run (scripted [response_with (firstn 1 sample_records);
                                    response_with (skipn 1 sample_records)]
                                   (response_with []))
                         sample_repr (sample_miner 150, sample_world))))
    = 13
  /\ seq_num (fst (snd (run (scripted [response_with (firstn 2 sample_records);
                                       response_with (skipn 2 sample_records)]
                                      (response_with []))
                            sample_repr (sample_miner 150, sample_world))))
    = 13.
Proof.
  split.
  - destruct (cursor_follows_last_record
                (scripted [response_with (firstn 1 sample_records);
                           response_with (skipn 1 sample_records)]
                          (response_with []))
                sample_repr (sample_miner 150) sample_world
                [firstn 1 sample_records; skipn 1 sample_records])
      as (_ & (w' & E & _) & _).
    + reflexivity.
    + intros [|[|[|k]]] b url Hk; simpl in Hk; try discriminate;
        injection Hk as <-; eexists; repeat split; reflexivity.
    + simpl. unfold sample_records. prove_ready.
    + discriminate.
    + rewrite E. reflexivity.
  - destruct (cursor_follows_last_record
                (scripted [response_with (firstn 2 sample_records);
                           response_with (skipn 2 sample_records)]
                          (response_with []))
                sample_repr (sample_miner 150) sample_world
                [firstn 2 sample_records; skipn 2 sample_records])
      as (_ & (w' & E & _) & _).
    + reflexivity.
    + intros [|[|[|k]]] b url Hk; simpl in Hk; try discriminate;
        injection Hk as <-; eexists; repeat split; reflexivity.
    + simpl. unfold sample_records. prove_ready.
    + discriminate.
    + rewrite E. reflexivity.
Defined.

(** C4 as stated fails when a record with a smaller sequence number
    follows one with a larger: the cursor follows the last record, not the
    largest. *)
Lemma cursor_is_not_the_maximum :
  map seq_of unordered_records = [12; 10]
  /\ max_seq unordered_records + 1 = 13
  /\ (let '(r, (self', w')) :=
        run (scripted [response_with unordered_records] (response_with []))
            sample_repr (sample_miner 50, sample_world) in
      r = Ok JNull /\ seq_num self' = 11 /\ seq_num_txt w' = Some "11").
Proof. vm_compute. repeat split. Qed.

(* ================================================================== *)
(** ** When [run] returns *)

Section Returns.

Variable net : transport.
Variable repr_container : json -> string.

Hypothesis net_good : forall n url, good_reply repr_container (net n url).

(** [get_response] returns [None] or a response whose records are all
    [ready]; the miner object is as it was. *)
Lemma get_response_good url tries :
  forall self w,
    exists j w',
      get_response net url tries (self, w) = (Ok j, (self, w'))
      /\ (j = JNull
          \/ exists ms, response_matches j = Ok ms
                        /\ Forall (ready repr_container) ms).
Proof.
  induction tries as [|tries IH]; intros self w.
  - exists JNull, w. split; [reflexivity | now left].
  - cbn [get_response]. unfold bind at 1. unfold urlopen.
    pose proof (net_good (net_calls w) url) as Hg.
    destruct (net (net_calls w) url) as [|[|j]]; cbn [json_load good_reply] in *.
    + contradiction.
    + unfold bind at 1. unfold print at 1. unfold bind at 1.
      unfold sleep at 1. apply IH.
    + unfold bind at 1. unfold lift at 1.
      destruct Hg as [Hf | (Ht & ms & Hm & Hr)].
      * rewrite Hf. simpl negb. cbv iota.
        unfold bind at 1. unfold print at 1. unfold bind at 1.
        unfold sleep at 1. apply IH.
      * rewrite Ht. simpl negb. cbv iota. unfold ret.
        eexists _, _. split; [reflexivity|]. right. now exists ms.
Qed.

Lemma run_loop_good chunks remainder indices :
  forall self w,
    exists s',
      run_loop net repr_container chunks remainder indices (self, w)
      = (Ok tt, s').
Proof.
  induction indices as [|i rest IH]; intros self w.
  - now exists (self, w).
  - rewrite run_loop_cons.
    destruct (get_response_good
                (get_url self (batch_size chunks remainder i)) 10 self w)
      as (j & w' & E & Hj).
    rewrite E. destruct Hj as [-> | (ms & Hm & Hr)].
    + now exists (self, w').
    + rewrite (response_matches_truthy _ _ Hm). simpl negb. cbv iota.
      unfold bind at 1. unfold lift at 1. rewrite Hm.
      unfold bind at 1.
      rewrite (process_matches_ready repr_container ms _ _ Hr).
      unfold bind at 1. unfold print at 1. apply IH.
Qed.

(** With such a network [run] returns, whichever way its loop ends. *)
Lemma run_good s : exists s', run net repr_container s = (Ok JNull, s').
Proof.
  destruct s as [self w]. unfold run. unfold bind at 1.
  unfold get_self at 1. cbn [fst]. unfold bind at 1. unfold print at 1.
  unfold run_from. unfold bind at 1.
  destruct (run_loop_good (games_number self / 100)
              (games_number self - games_number self / 100 * 100)
              (py_range (games_number self / 100 + 1)) self
              (log (EvPrint ("Start mining: " ++ str_int (seq_num self))) w))
    as ([self1 w1] & E).
  rewrite E. unfold bind, save_sequence_number, get_self, write_seq_num_txt,
    ret. simpl. eauto.
Qed.

End Returns.

(* ================================================================== *)
(** ** The cursor file: [int(str(c))] *)

Lemma string_of_uint_digits d :
  string_forallb is_digit (NilEmpty.string_of_uint d) = true.
Proof. induction d; simpl; try rewrite IHd; reflexivity. Qed.

Lemma NilZero_string_of_uint_digits d :
  string_forallb is_digit (NilZero.string_of_uint d) = true.
Proof.
  destruct d; try reflexivity;
    unfold NilZero.string_of_uint; apply string_of_uint_digits.
Qed.

Lemma NilZero_string_of_uint_cons d :
  exists c t, NilZero.string_of_uint d = String c t.
Proof. destruct d; simpl; eauto. Qed.

Lemma is_digit_not_space c : is_digit c = true -> is_space c = false.
Proof.
  destruct c as [[] [] [] [] [] [] [] []]; try reflexivity; discriminate.
Qed.

Lemma is_digit_not_sign c :
  is_digit c = true -> Ascii.eqb c "+" = false /\ Ascii.eqb c "-" = false.
Proof.
  destruct c as [[] [] [] [] [] [] [] []]; try (split; reflexivity);
    discriminate.
Qed.

Lemma string_forallb_impl (f g : ascii -> bool) s :
  (forall c, f c = true -> g c = true) ->
  string_forallb f s = true -> string_forallb g s = true.
Proof.
  intros H. induction s as [|c s IH]; simpl; [reflexivity|].
  intros E. apply andb_true_iff in E. destruct E as [E1 E2].
  now rewrite (H c E1), IH.
Qed.

Lemma lstrip_no_space s : no_space s = true -> lstrip s = s.
Proof.
  destruct s as [|c s]; simpl; [reflexivity|]. unfold no_space. simpl.
  intros E. apply andb_true_iff in E. destruct E as [E _].
  now destruct (is_space c).
Qed.

Lemma rstrip_no_space s : no_space s = true -> rstrip s = s.
Proof.
  unfold no_space. induction s as [|c s IH]; simpl; [reflexivity|].
  intros E. apply andb_true_iff in E. destruct E as [E1 E2].
  rewrite (IH E2). destruct (is_space c); [discriminate | reflexivity].
Qed.

Lemma readline_no_space s : no_space s = true -> readline s = s.
Proof.
  unfold no_space. induction s as [|c s IH]; simpl; [reflexivity|].
  intros E. apply andb_true_iff in E. destruct E as [E1 E2].
  rewrite (IH E2). destruct (Ascii.eqb_spec c "010") as [->|_];
    [discriminate | reflexivity].
Qed.

Lemma str_int_no_space z : no_space (str_int z) = true.
Proof.
  unfold str_int, no_space.
  assert (H : forall d, string_forallb (fun c => negb (is_space c))
                          (NilZero.string_of_uint d) = true).
  { intros d. apply string_forallb_impl with (f := is_digit).
    - intros c Hc. now rewrite (is_digit_not_space c Hc).
    - apply NilZero_string_of_uint_digits. }
  destruct (Z.to_int z) as [d|d]; simpl; [apply H | now rewrite H].
Qed.

Lemma digits_to_Z_string_of_uint d :
  digits_to_Z (NilZero.string_of_uint d) = Ok (Z.of_uint d).
Proof.
  unfold digits_to_Z. destruct d; try reflexivity;
    rewrite NilZero.usu by discriminate; reflexivity.
Qed.

(** [int] reads back what [str] printed. *)
Lemma py_int_str_int z : py_int (str_int z) = Ok z.
Proof.
  unfold py_int.
  rewrite lstrip_no_space, rstrip_no_space by apply str_int_no_space.
  unfold str_int. rewrite <- (DecimalZ.of_to z) at 2.
  destruct (Z.to_int z) as [d|d]; simpl.
  - destruct (NilZero_string_of_uint_cons d) as (c & t & E).
    pose proof (NilZero_string_of_uint_digits d) as Hd.
    rewrite E in Hd. simpl in Hd. apply andb_true_iff in Hd.
    destruct Hd as [Hc _]. apply is_digit_not_sign in Hc.
    destruct Hc as [H1 H2]. rewrite E, H1, H2, <- E.
    apply digits_to_Z_string_of_uint.
  - rewrite digits_to_Z_string_of_uint. reflexivity.
Qed.

Lemma init_reads_saved_cursor games key c w :
  seq_num_txt w = Some (str_int c) ->
  init games key w = Ok (mkMiner (Z.min games NUM_GAME_LIMIT) key c).
Proof.
  intros H. unfold init, get_starting_match_sequence_number. rewrite H.
  rewrite readline_no_space by apply str_int_no_space.
  now rewrite py_int_str_int.
Qed.

(* ================================================================== *)
(** ** Resuming from the saved cursor *)

Lemma seq_ge_mono c c' r : c <= c' -> seq_ge c' r -> seq_ge c r.
Proof. intros Hc (n & Hn & Hle). exists n. split; [exact Hn | lia]. Qed.

Lemma delivered_from_snoc c tr e :
  delivered_from c tr -> event_from c e -> delivered_from c (tr ++ [e]).
Proof.
  intros Ht He. apply Forall_app. split; [exact Ht | now constructor].
Qed.

Section Resume.

Variable net : transport.
Variable repr_container : json -> string.
Variable key : string.
Variable c : Z.

Hypothesis net_honest : honest net key.

Lemma resumed_log self w e :
  resumed key c (self, w) -> event_from c e -> resumed key c (self, log e w).
Proof.
  intros (Hk & Hc & Hd) He. repeat split; try assumption.
  simpl. now apply delivered_from_snoc.
Qed.

Lemma process_matches_resumed ms :
  Forall (seq_ge c) ms ->
  forall self w,
    resumed key c (self, w) ->
    resumed key c (snd (process_matches repr_container ms (self, w))).
Proof.
  induction 1 as [|r ms (n & Hn & Hle) _ IH]; intros self w Hs;
    [exact Hs|].
  cbn [process_matches]. unfold bind at 1. unfold lift at 1.
  destruct (py_getitem r "match_id") as [id|e]; [|exact Hs].
  unfold bind at 1. unfold lift at 1.
  destruct (valid r) as [b|e]; [|exact Hs].
  unfold bind at 1.
  assert (Hw : exists w1,
             resumed key c (self, w1)
             /\ ((if b then
                    (text <- lift (py_str repr_container id) ;;
                     out_file_write (text ++ String "010" ""))%io
                  else ret tt) (self, w) = (Ok tt, (self, w1))
                 \/ exists e,
                     (if b then
                        (text <- lift (py_str repr_container id) ;;
                         out_file_write (text ++ String "010" ""))%io
                      else ret tt) (self, w) = (Raise e, (self, w1)))).
  { destruct b.
    - unfold bind, lift. destruct (py_str repr_container id) as [text|e].
      + exists (log (EvWrite (text ++ String "010" "")) w). split.
        * now apply resumed_log.
        * left. reflexivity.
      + exists w. split; [exact Hs | right; now exists e].
    - exists w. split; [exact Hs | left; reflexivity]. }
  destruct Hw as (w1 & Hs1 & [E | [e E]]); rewrite E; [|exact Hs1].
  unfold bind at 1. unfold lift at 1. rewrite Hn.
  unfold bind at 1. unfold lift at 1. cbn [py_add_int].
  unfold bind at 1. unfold set_seq_num at 1.
  apply IH. destruct Hs1 as (Hk & Hc & Hd).
  repeat split; simpl; [exact Hk | lia | exact Hd].
Qed.

Lemma get_response_resumed n tries :
  forall self w,
    resumed key c (self, w) ->
    let (r, s') := get_response net (get_url self n) tries (self, w) in
    resumed key c s'
    /\ (forall j ms,
          r = Ok j -> response_matches j = Ok ms -> Forall (seq_ge c) ms).
Proof.
  induction tries as [|tries IH]; intros self w Hs.
  - split; [exact Hs|]. intros j ms [= <-]. discriminate.
  - assert (He : event_from c
                   (EvUrlopen (get_url self n)
                      (net (net_calls w) (get_url self n)))).
    { destruct (net (net_calls w) (get_url self n)) as [|[|j]] eqn:En;
        simpl; try exact I.
      intros ms Hm. destruct Hs as (Hk & Hc & _).
      eapply Forall_impl; [|exact (net_honest _ self n j ms Hk En Hm)].
      intros r. now apply seq_ge_mono. }
    assert (Hs1 : resumed key c
                    (self,
                     mkWorld (seq_num_txt w) (S (net_calls w))
                       (trace w ++ [EvUrlopen (get_url self n)
                                      (net (net_calls w) (get_url self n))]))).
    { destruct Hs as (Hk & Hc & Hd). repeat split; try assumption.
      simpl. now apply delivered_from_snoc. }
    cbn [get_response]. unfold bind at 1. unfold urlopen.
    destruct (net (net_calls w) (get_url self n)) as [|[|j]] eqn:En;
      cbn [json_load].
    + split; [exact Hs1 | intros ? ? H; discriminate H].
    + unfold bind at 1. unfold print at 1. unfold bind at 1.
      unfold sleep at 1. apply IH.
      apply resumed_log; [|exact I]. apply resumed_log; [exact Hs1|exact I].
    + unfold bind at 1. unfold lift at 1.
      destruct (py_contains "result" j) as [[|]|e]; simpl negb; cbv iota.
      * split; [exact Hs1|]. intros j' ms [= <-] Hm.
        exact (He ms Hm).
      * unfold bind at 1. unfold print at 1. unfold bind at 1.
        unfold sleep at 1. apply IH.
        apply resumed_log; [|exact I].
        apply resumed_log; [exact Hs1|exact I].
      * split; [exact Hs1 | intros ? ? H; discriminate H].
Qed.

Lemma run_loop_resumed chunks remainder indices :
  forall self w,
    resumed key c (self, w) ->
    resumed key c (snd (run_loop net repr_container chunks remainder indices
                    (self, w))).
Proof.
  induction indices as [|i rest IH]; intros self w Hs; [exact Hs|].
  rewrite run_loop_cons.
  pose proof (get_response_resumed (batch_size chunks remainder i) 10
                self w Hs) as H.
  destruct (get_response net _ 10 (self, w)) as [[j|e] [self1 w1]];
    destruct H as [Hs1 Hj]; [|exact Hs1].
  destruct (negb (py_truthy j)); [exact Hs1|].
  unfold bind at 1. unfold lift at 1.
  destruct (response_matches j) as [ms|e] eqn:Em; [|exact Hs1].
  unfold bind at 1.
  pose proof (process_matches_resumed ms (Hj j ms eq_refl Em)
                self1 w1 Hs1) as Hs2.
  destruct (process_matches repr_container ms (self1, w1))
    as [[[]|e] [self2 w2]]; [|exact Hs2].
  unfold bind at 1. unfold print at 1. apply IH.
  apply resumed_log; [exact Hs2 | exact I].
Qed.

Lemma run_resumed self w :
  resumed key c (self, w) ->
  resumed key c (snd (run net repr_container (self, w))).
Proof.
  intros Hs. unfold run. unfold bind at 1. unfold get_self at 1. cbn [fst].
  unfold bind at 1. unfold print at 1. unfold run_from. unfold bind at 1.
  pose proof (run_loop_resumed (games_number self / 100)
                (games_number self - games_number self / 100 * 100)
                (py_range (games_number self / 100 + 1)) self
                (log (EvPrint ("Start mining: " ++ str_int (seq_num self))) w)
                (resumed_log self w
                   (EvPrint ("Start mining: " ++ str_int (seq_num self)))
                   Hs I)) as Hs1.
  destruct (run_loop net repr_container _ _ _ _) as [[[]|e] [self1 w1]];
    [|exact Hs1].
  unfold bind, save_sequence_number, get_self, write_seq_num_txt, ret.
  simpl. exact Hs1.
Qed.

End Resume.

(** Whenever [run] returns, [seq_num.txt] holds the cursor. *)
Lemma run_saves_cursor net repr_container s v s' :
  run net repr_container s = (Ok v, s') ->
  seq_num_txt (snd s') = Some (str_int (seq_num (fst s'))).
Proof.
  destruct s as [self w]. unfold run. unfold bind at 1.
  unfold get_self at 1. cbn [fst]. unfold bind at 1. unfold print at 1.
  unfold run_from. unfold bind at 1.
  destruct (run_loop net repr_container _ _ _ _) as [[[]|e] [self1 w1]];
    [|discriminate].
  unfold bind, save_sequence_number, get_self, write_seq_num_txt, ret.
  simpl. intros [= _ <-]. reflexivity.
Qed.

(** *** The provider that reads the URL is honest *)

Lemma number_prefix_app a t :
  string_forallb is_number_char a = true ->
  number_prefix (a ++ String "&" t) = a.
Proof.
  induction a as [|c a IH]; simpl; [reflexivity|].
  intros E. apply andb_true_iff in E. destruct E as [E1 E2].
  now rewrite E1, IH.
Qed.

Lemma str_int_number_chars z :
  string_forallb is_number_char (str_int z) = true.
Proof.
  assert (H : forall d, string_forallb is_number_char
                          (NilZero.string_of_uint d) = true).
  { intros d. apply string_forallb_impl with (f := is_digit).
    - intros ch Hc. unfold is_number_char. now rewrite Hc.
    - apply NilZero_string_of_uint_digits. }
  unfold str_int. destruct (Z.to_int z) as [d|d]; simpl;
    [apply H | now rewrite H].
Qed.

Lemma query_int_cursor self n :
  api_key self = "KEY" ->
  query_int SEQ_STRING (get_url self n) = Ok (seq_num self).
Proof.
  intros Hk. unfold query_int, get_url. rewrite Hk.
  change (text_after SEQ_STRING
            (STEAM_BASE_URL ++ "KEY" ++ SEQ_STRING ++ str_int (seq_num self)
               ++ REQUESTS_STRING ++ str_int n))
    with (Some (str_int (seq_num self)
                  ++ String "&" ("matches_requested=" ++ str_int n))).
  cbv beta iota.
  rewrite number_prefix_app by apply str_int_number_chars.
  apply py_int_str_int.
Qed.

Lemma Forall_firstn_of {A} (P : A -> Prop) n (l : list A) :
  Forall P l -> Forall P (firstn n l).
Proof.
  intros H. revert n. induction H; intros [|n]; simpl; constructor; auto.
Qed.

Lemma provider_honest db : honest (provider db) "KEY".
Proof.
  intros i self n j ms Hk Hn Hm. unfold provider in Hn.
  rewrite (query_int_cursor self n Hk) in Hn.
  destruct (query_int REQUESTS_STRING (get_url self n)) as [m|e];
    [|discriminate].
  injection Hn as <-. injection Hm as <-.
  apply Forall_firstn_of. apply Forall_forall. intros r Hr.
  apply filter_In in Hr. destruct Hr as [_ Hr]. unfold has_seq_from in Hr.
  unfold seq_ge.
  destruct (py_getitem r "match_seq_num") as [[| | x | | |]|];
    try discriminate.
  exists x. split; [reflexivity | now apply Z.leb_le].
Qed.

(** It sends well-formed replies when its records are well formed. *)
Lemma provider_good repr_container db :
  Forall (ready repr_container) db ->
  forall n url, good_reply repr_container (provider db n url).
Proof.
  intros Hdb n url. unfold provider.
  destruct (query_int SEQ_STRING url) as [k|e]; [|exact I].
  destruct (query_int REQUESTS_STRING url) as [m|e]; [|exact I].
  right. split; [reflexivity|]. eexists. split; [reflexivity|].
  apply Forall_firstn_of. apply Forall_forall. intros r Hr.
  apply filter_In in Hr. destruct Hr as [Hr _].
  rewrite Forall_forall in Hdb. now apply Hdb.
Qed.

Lemma seq_ge_seq_of c r : seq_ge c r -> c <= seq_of r.
Proof. intros (n & Hn & Hle). unfold seq_of. now rewrite Hn. Qed.

(** *** What a run was given, and where it leaves the cursor *)

Lemma delivered_records_app tr1 tr2 :
  delivered_records (tr1 ++ tr2)
  = (delivered_records tr1 ++ delivered_records tr2)%list.
Proof.
  induction tr1 as [|e tr1 IH]; [reflexivity|].
  destruct e as [url [|[|j]] | | |]; simpl; try exact IH.
  destruct (py_contains "result" j) as [[|]|]; try exact IH.
  destruct (response_matches j) as [ms|]; try exact IH.
  now rewrite IH, app_assoc.
Qed.

Lemma delivered_records_log e w :
  match e with EvUrlopen _ _ => False | _ => True end ->
  delivered_records (trace (log e w)) = delivered_records (trace w).
Proof.
  intros He. unfold log. cbn [trace]. rewrite delivered_records_app.
  destruct e; [contradiction | | |]; simpl; apply app_nil_r.
Qed.

Lemma delivered_records_lines repr_container rs :
  delivered_records (flat_map (line_of repr_container) rs) = [].
Proof.
  induction rs as [|r rs IH]; [reflexivity|].
  cbn [flat_map]. rewrite delivered_records_app, IH, app_nil_r.
  unfold line_of. destruct (valid r) as [[|]|]; try reflexivity.
  destruct (py_getitem r "match_id") as [id|]; try reflexivity.
  destruct (py_str repr_container id); reflexivity.
Qed.

Lemma delivered_records_in r tr :
  In r (delivered_records tr) ->
  exists url j ms,
    In (EvUrlopen url (Response (Json j))) tr
    /\ response_matches j = Ok ms /\ In r ms.
Proof.
  induction tr as [|e tr IH]; [contradiction|].
  assert (Hrest : In r (delivered_records tr) ->
                  exists url j ms,
                    In (EvUrlopen url (Response (Json j))) (e :: tr)
                    /\ response_matches j = Ok ms /\ In r ms).
  { intros H. destruct (IH H) as (url & j & ms & Hin & Hm & Hr).
    exists url, j, ms. split; [now right | now split]. }
  destruct e as [url [|[|j]] | | |]; simpl; try exact Hrest.
  destruct (py_contains "result" j) as [[|]|]; try exact Hrest.
  destruct (response_matches j) as [ms|] eqn:Em; try exact Hrest.
  intros H. apply in_app_or in H. destruct H as [H|H]; [|now apply Hrest].
  exists url, j, ms. split; [now left | now split].
Qed.

Section Tracks.

Variable net : transport.
Variable repr_container : json -> string.

Hypothesis net_good : forall n url, good_reply repr_container (net n url).

(** [get_response] returns [None] after calls that delivered nothing, or
    a response whose records are the ones delivered since its first
    call. *)
Lemma get_response_tracks url tries :
  forall self w,
    exists j w',
      get_response net url tries (self, w) = (Ok j, (self, w'))
      /\ ((j = JNull
           /\ delivered_records (trace w') = delivered_records (trace w))
          \/ exists ms,
               response_matches j = Ok ms
               /\ Forall (ready repr_container) ms
               /\ delivered_records (trace w')
                  = (delivered_records (trace w) ++ ms)%list).
Proof.
  induction tries as [|tries IH]; intros self w.
  - exists JNull, w. split; [reflexivity | now left].
  - cbn [get_response]. unfold bind at 1. unfold urlopen.
    pose proof (net_good (net_calls w) url) as Hg.
    destruct (net (net_calls w) url) as [|[|j]] eqn:En;
      cbn [json_load good_reply] in *.
    + contradiction.
    + unfold bind at 1. unfold print at 1. unfold bind at 1.
      unfold sleep at 1.
      destruct (IH self
                  (log (EvSleep 60)
                     (log (EvPrint "Cannot parse response.")
                        (mkWorld (seq_num_txt w) (S (net_calls w))
                           (trace w ++ [EvUrlopen url (Response NotJson)])))))
        as (j & w' & E & Hj).
      exists j, w'. split; [exact E|].
      rewrite !delivered_records_log in Hj by exact I.
      cbn [trace] in Hj. rewrite delivered_records_app in Hj.
      simpl delivered_records at 2 in Hj. rewrite app_nil_r in Hj.
      exact Hj.
    + unfold bind at 1. unfold lift at 1.
      destruct Hg as [Hf | (Ht & ms & Hm & Hr)].
      * rewrite Hf. simpl negb. cbv iota.
        unfold bind at 1. unfold print at 1. unfold bind at 1.
        unfold sleep at 1.
        destruct (IH self
                    (log (EvSleep 60)
                       (log (EvPrint "Invalid json string.")
                          (mkWorld (seq_num_txt w) (S (net_calls w))
                             (trace w
                                ++ [EvUrlopen url (Response (Json j))])))))
          as (j' & w' & E & Hj).
        exists j', w'. split; [exact E|].
        rewrite !delivered_records_log in Hj by exact I.
        cbn [trace] in Hj. rewrite delivered_records_app in Hj.
        cbn [delivered_records] in Hj. rewrite Hf, app_nil_r in Hj.
        exact Hj.
      * rewrite Ht. simpl negb. cbv iota. unfold ret.
        eexists _, _. split; [reflexivity|]. right. exists ms.
        split; [exact Hm|]. split; [exact Hr|].
        cbn [trace]. rewrite delivered_records_app.
        cbn [delivered_records]. rewrite Ht, Hm, app_nil_r. reflexivity.
Qed.

(** The outer loop returns, and leaves the cursor where the records it
    was given lead it, one after the other. *)
Lemma run_loop_tracks chunks remainder indices :
  forall self w,
    exists self' w' rs,
      run_loop net repr_container chunks remainder indices (self, w)
      = (Ok tt, (self', w'))
      /\ delivered_records (trace w')
         = (delivered_records (trace w) ++ rs)%list
      /\ seq_num self' = cursor_after (seq_num self) rs.
Proof.
  induction indices as [|i rest IH]; intros self w.
  - exists self, w, []. split; [reflexivity|].
    split; [now rewrite app_nil_r | reflexivity].
  - rewrite run_loop_cons.
    destruct (get_response_tracks
                (get_url self (batch_size chunks remainder i)) 10 self w)
      as (j & w1 & E & Hj).
    rewrite E. destruct Hj as [[-> Hd] | (ms & Hm & Hr & Hd)].
    + exists self, w1, []. split; [reflexivity|].
      split; [now rewrite app_nil_r | reflexivity].
    + rewrite (response_matches_truthy _ _ Hm). simpl negb. cbv iota.
      unfold bind at 1. unfold lift at 1. rewrite Hm.
      unfold bind at 1.
      rewrite (process_matches_ready repr_container ms _ _ Hr).
      unfold bind at 1. unfold print at 1.
      destruct (IH (with_seq_num self (cursor_after (seq_num self) ms))
                  (log (EvPrint ("Processed " ++ str_int ((i + 1) * 100)
                                   ++ " games"))
                     (mkWorld (seq_num_txt w1) (net_calls w1)
                        (trace w1
                           ++ flat_map (line_of repr_container) ms))))
        as (self' & w' & rs & E' & Hd' & Hc').
      exists self', w', (ms ++ rs)%list. split; [exact E'|].
      rewrite delivered_records_log in Hd' by exact I.
      cbn [trace] in Hd'.
      rewrite delivered_records_app, delivered_records_lines, app_nil_r,
        Hd in Hd'.
      split; [now rewrite app_assoc|].
      rewrite cursor_after_app. exact Hc'.
Qed.

(** So does [run]. *)
Lemma run_tracks self w :
  exists self' w' rs,
    run net repr_container (self, w) = (Ok JNull, (self', w'))
    /\ delivered_records (trace w')
       = (delivered_records (trace w) ++ rs)%list
    /\ seq_num self' = cursor_after (seq_num self) rs.
Proof.
  unfold run. unfold bind at 1. unfold get_self at 1. cbn [fst].
  unfold bind at 1. unfold print at 1. unfold run_from. unfold bind at 1.
  destruct (run_loop_tracks (games_number self / 100)
              (games_number self - games_number self / 100 * 100)
              (py_range (games_number self / 100 + 1)) self
              (log (EvPrint ("Start mining: " ++ str_int (seq_num self))) w))
    as (self1 & w1 & rs & E & Hd & Hc).
  rewrite E. unfold bind, save_sequence_number, get_self, write_seq_num_txt,
    ret. cbn [fst snd].
  eexists _, _, rs. split; [reflexivity|].
  rewrite delivered_records_log in Hd by exact I.
  cbn [trace]. split; [exact Hd | exact Hc].
Qed.

End Tracks.




(* ================================================================== *)
(** ** The batch plan *)

Lemma map_seq_constant (f : nat -> Z) (v : Z) (start len : nat) :
  (forall i, (start <= i < start + len)%nat -> f i = v) ->
  map f (seq start len) = repeat v len.
Proof.
  revert start. induction len as [|len IH]; intros start H; simpl;
    [reflexivity|].
  rewrite (H start) by lia. f_equal. apply IH. intros i Hi. apply H. lia.
Qed.

(** X1: the plan for a count that is not negative: [games_number / 100]
    requests of size 100, then one request of size [games_number mod 100],
    also when that size is 0. *)
Lemma batch_plan_nonneg (games : Z) :
  0 <= games ->
  batch_plan games
  = (repeat 100 (Z.to_nat (games / 100)) ++ [games mod 100])%list.
Proof.
  intros Hg. unfold batch_plan, py_range.
  assert (Hc : 0 <= games / 100) by (apply Z.div_pos; lia).
  replace (Z.to_nat (games / 100 + 1)) with (S (Z.to_nat (games / 100)))
    by lia.
  rewrite seq_S, map_app, map_app, map_map. simpl. f_equal.
  - apply map_seq_constant. intros i Hi. unfold batch_size.
    destruct (Z.eqb_spec (Z.of_nat i) (games / 100)); [lia | reflexivity].
  - unfold batch_size. rewrite Z2Nat.id by lia. rewrite Z.eqb_refl.
    f_equal. rewrite Z.mod_eq by lia. lia.
Qed.

Lemma batch_plan_nonneg_witness :
  batch_plan 250 = [100; 100; 50] /\ batch_plan 200 = [100; 100; 0].
Proof.
  split.
  - exact (batch_plan_nonneg 250 ltac:(lia)).
  - exact (batch_plan_nonneg 200 ltac:(lia)).
Defined.

Lemma requested_urls_app tr1 tr2 :
  requested_urls (tr1 ++ tr2) = (requested_urls tr1 ++ requested_urls tr2)%list.
Proof.
  induction tr1 as [|[] tr1 IH]; simpl; try rewrite IH; reflexivity.
Qed.

Section Plan.

Variable net : transport.
Variable repr_container : json -> string.

(** The provider answers every call with a well-formed empty result. *)
Hypothesis net_empty : forall n url, net n url = response_with [].

Lemma run_loop_plan chunks remainder indices :
  forall self w,
    let s' := snd (run_loop net repr_container chunks remainder indices
                     (self, w)) in
    fst s' = self
    /\ requested_urls (trace (snd s')) =
       (requested_urls (trace w)
        ++ map (fun i => get_url self (batch_size chunks remainder i))
             indices)%list.
Proof.
  induction indices as [|i rest IH]; intros self w.
  - simpl. now rewrite app_nil_r.
  - cbv zeta.
    rewrite (run_loop_empty_batch net repr_container chunks remainder i rest
               self w _ _
               (get_response_first_try net _ 9 self w
                  (JDict [("result",
                           JDict [("status", JInt 1);
                                  ("matches", JList [])])])
                  (net_empty _ _) eq_refl)
               eq_refl).
    unfold bind, print.
    match goal with
    | |- context [run_loop _ _ _ _ rest (self, ?w1)] =>
        destruct (IH self w1) as [E1 E2]
    end.
    split; [exact E1|]. rewrite E2. simpl trace.
    rewrite !requested_urls_app. simpl. rewrite app_nil_r.
    now rewrite <- app_assoc.
Qed.

(** X2: what [run] requests from a provider that has nothing to send: the
    whole plan, at the cursor it started from. *)
Lemma run_requests_plan self w :
  requested_urls (trace (snd (snd (run net repr_container (self, w))))) =
  (requested_urls (trace w)
   ++ map (get_url self) (batch_plan (games_number self)))%list.
Proof.
  unfold run. unfold bind at 1. unfold get_self at 1. cbn [fst].
  unfold bind at 1. unfold print at 1. unfold run_from. unfold bind at 1.
  destruct (run_loop_plan (games_number self / 100)
              (games_number self - games_number self / 100 * 100)
              (py_range (games_number self / 100 + 1)) self
              (log (EvPrint ("Start mining: " ++ str_int (seq_num self))) w))
    as [E1 E2].
  destruct (run_loop net repr_container _ _ _ _) as [[[]|e] [self1 w1]];
    simpl in E1, E2 |- *.
  - rewrite E2, requested_urls_app. simpl. rewrite app_nil_r.
    unfold batch_plan. now rewrite map_map.
  - rewrite E2, requested_urls_app. simpl. rewrite app_nil_r.
    unfold batch_plan. now rewrite map_map.
Qed.

End Plan.

Lemma run_requests_plan_witness :
  requested_urls
    (trace (snd (snd (run no_more_data sample_repr
                        (sample_miner 250, sample_world)))))
  = [get_url (sample_miner 250) 100; get_url (sample_miner 250) 100;
     get_url (sample_miner 250) 50].
Proof.
  rewrite (run_requests_plan no_more_data sample_repr).
  - reflexivity.
  - intros [|n] url; reflexivity.
Defined.

(* ================================================================== *)
(** ** More on the validity filter *)

(** X3: on a record whose players are player objects and whose three
    other fields are integers, [valid] is the conjunction of its four
    criteria: no player with status 1, at least 1200 seconds, ten human
    players, game mode 22. *)
Theorem valid_iff_all_criteria (m : json) (ps : list json) (d h g : Z) :
  py_getitem m "players" = Ok (JList ps) ->
  Forall is_dict ps ->
  py_getitem m "duration" = Ok (JInt d) ->
  py_getitem m "human_players" = Ok (JInt h) ->
  py_getitem m "game_mode" = Ok (JInt g) ->
  valid m = Ok (negb (existsb counts_as_leaver ps)
                && (1200 <=? d) && (h =? 10) && (g =? 22)).
Proof.
  intros Hm Hps Hd Hh Hg. unfold valid. rewrite Hm. simpl.
  rewrite (leaver_found_existsb ps Hps). simpl.
  destruct (existsb counts_as_leaver ps); [reflexivity|].
  unfold valid_after_players, MIN_DURATION. rewrite Hd. simpl.
  rewrite Z.leb_antisym. destruct (d <? 1200); [reflexivity|].
  rewrite Hh. simpl. unfold py_ne_int. simpl.
  destruct (h =? 10); [|reflexivity].
  rewrite Hg. simpl. now destruct (g =? 22).
Qed.

Lemma valid_iff_all_criteria_witness :
  valid (match_record 1 10 1500 (JList [player 0; player 2])) = Ok true
  /\ valid (JDict [("players", JList [player 0]); ("duration", JInt 1500);
                   ("human_players", JInt 9); ("game_mode", JInt 22)])
     = Ok false
  /\ valid (JDict [("players", JList [player 0]); ("duration", JInt 1500);
                   ("human_players", JInt 10); ("game_mode", JInt 1)])
     = Ok false.
Proof.
  split; [|split].
  - exact (valid_iff_all_criteria
             (match_record 1 10 1500 (JList [player 0; player 2]))
             [player 0; player 2] 1500 10 22
             eq_refl ltac:(repeat constructor) eq_refl eq_refl eq_refl).
  - exact (valid_iff_all_criteria
             (JDict [("players", JList [player 0]); ("duration", JInt 1500);
                     ("human_players", JInt 9); ("game_mode", JInt 22)])
             [player 0] 1500 9 22
             eq_refl ltac:(repeat constructor) eq_refl eq_refl eq_refl).
  - exact (valid_iff_all_criteria
             (JDict [("players", JList [player 0]); ("duration", JInt 1500);
                     ("human_players", JInt 10); ("game_mode", JInt 1)])
             [player 0] 1500 10 1
             eq_refl ltac:(repeat constructor) eq_refl eq_refl eq_refl).
Defined.

(** X4: on a record whose players are player objects, [valid] raises
    nothing but [KeyError], and only when one of [duration],
    [human_players], [game_mode] is missing: when the three are there,
    whatever their JSON types, it returns a boolean. *)
Theorem valid_raises_only_for_missing_field
    (fields : list (string * json)) (ps : list json) (e : exn) :
  dict_get "players" fields = Some (JList ps) ->
  Forall is_dict ps ->
  valid (JDict fields) = Raise e ->
  e = KeyError
  /\ (dict_get "duration" fields = None
      \/ dict_get "human_players" fields = None
      \/ dict_get "game_mode" fields = None).
Proof.
  intros Hp Hps. unfold valid. simpl. rewrite Hp. simpl.
  rewrite (leaver_found_existsb ps Hps). simpl.
  destruct (existsb counts_as_leaver ps); [discriminate|].
  unfold valid_after_players. simpl.
  destruct (dict_get "duration" fields) as [d|]; simpl;
    [|intros [= <-]; auto].
  destruct (py_lt_int d MIN_DURATION); [discriminate|].
  destruct (dict_get "human_players" fields) as [h|]; simpl;
    [|intros [= <-]; auto].
  destruct (py_ne_int h 10); [discriminate|].
  destruct (dict_get "game_mode" fields) as [g|]; simpl;
    [|intros [= <-]; auto].
  destruct (py_ne_int g 22); discriminate.
Qed.

Lemma valid_raises_only_for_missing_field_witness :
  valid (JDict [("players", JList [player 0]); ("duration", JStr "long");
                ("game_mode", JInt 22)]) = Raise KeyError
  /\ KeyError = KeyError
  /\ (dict_get "duration"
        [("players", JList [player 0]); ("duration", JStr "long");
         ("game_mode", JInt 22)] = None
      \/ dict_get "human_players"
           [("players", JList [player 0]); ("duration", JStr "long");
            ("game_mode", JInt 22)] = None
      \/ dict_get "game_mode"
           [("players", JList [player 0]); ("duration", JStr "long");
            ("game_mode", JInt 22)] = None).
Proof.
  split; [reflexivity|].
  exact (valid_raises_only_for_missing_field
           [("players", JList [player 0]); ("duration", JStr "long");
            ("game_mode", JInt 22)]
           [player 0] KeyError eq_refl
           ltac:(repeat constructor) eq_refl).
Defined.

(* ================================================================== *)
(** ** The URL of a request *)

Lemma append_inv_head (p a b : string) : p ++ a = p ++ b -> a = b.
Proof.
  induction p as [|c p IH]; simpl; [trivial|].
  intros [= H]. now apply IH.
Qed.

Lemma number_prefix_all a :
  string_forallb is_number_char a = true -> number_prefix a = a.
Proof.
  induction a as [|c a IH]; simpl; [reflexivity|].
  intros E. apply andb_true_iff in E. destruct E as [E1 E2].
  now rewrite E1, IH.
Qed.

Lemma str_int_inj a b : str_int a = str_int b -> a = b.
Proof.
  intros H. pose proof (py_int_str_int a) as Ha. rewrite H in Ha.
  rewrite py_int_str_int in Ha. now injection Ha.
Qed.

(** X5: the URL tells the request: two miners with the same key build
    the same URL only at the same cursor and for the same number of
    matches. *)
Theorem get_url_inj (self self' : SteamMiner) (n n' : Z) :
  api_key self = api_key self' ->
  get_url self n = get_url self' n' ->
  seq_num self = seq_num self' /\ n = n'.
Proof.
  intros Hk H. unfold get_url in H. rewrite <- Hk in H.
  apply append_inv_head in H. apply append_inv_head in H.
  apply append_inv_head in H.
  assert (Hc : str_int (seq_num self) = str_int (seq_num self')).
  { apply (f_equal number_prefix) in H.
    change REQUESTS_STRING with (String "&" "matches_requested=") in H.
    simpl append in H.
    now rewrite !number_prefix_app in H by apply str_int_number_chars. }
  split; [now apply str_int_inj|].
  rewrite Hc in H. apply append_inv_head in H. apply append_inv_head in H.
  now apply str_int_inj.
Qed.

Lemma get_url_inj_witness :
  seq_num (sample_miner 250) = seq_num (mkMiner 3 "KEY" 10) /\ 100 = 100.
Proof.
  exact (get_url_inj (sample_miner 250) (mkMiner 3 "KEY" 10) 100 100
           eq_refl eq_refl).
Defined.

(* ================================================================== *)
(** ** The cursor file, read and written *)

Lemma readline_first_line a rest :
  no_space a = true ->
  readline (a ++ String "010" rest) = a ++ String "010" "".
Proof.
  unfold no_space. induction a as [|c a IH]; simpl; [reflexivity|].
  intros E. apply andb_true_iff in E. destruct E as [E1 E2].
  rewrite (IH E2). destruct (Ascii.eqb_spec c "010") as [->|_];
    [discriminate | reflexivity].
Qed.

Lemma rstrip_newline a :
  no_space a = true -> rstrip (a ++ String "010" "") = a.
Proof.
  unfold no_space. induction a as [|c a IH]; simpl; [reflexivity|].
  intros E. apply andb_true_iff in E. destruct E as [E1 E2].
  rewrite (IH E2). destruct (is_space c); [discriminate | reflexivity].
Qed.

Lemma lstrip_line a :
  no_space a = true ->
  a <> "" ->
  lstrip (a ++ String "010" "") = a ++ String "010" "".
Proof.
  intros Hs Hne. destruct a as [|c t]; [contradiction|].
  unfold no_space in Hs. simpl in Hs. apply andb_true_iff in Hs.
  destruct Hs as [Hc _]. simpl. now destruct (is_space c).
Qed.

Lemma str_int_not_empty z : str_int z <> "".
Proof.
  unfold str_int. destruct (Z.to_int z) as [d|d]; simpl; [|discriminate].
  destruct (NilZero_string_of_uint_cons d) as (c & t & ->). discriminate.
Qed.

Lemma py_int_line z : py_int (str_int z ++ String "010" "") = Ok z.
Proof.
  transitivity (py_int (str_int z)); [|apply py_int_str_int].
  pose proof (str_int_no_space z) as Hs. unfold py_int.
  rewrite (lstrip_no_space (str_int z)), (rstrip_no_space (str_int z))
    by exact Hs.
  rewrite (lstrip_line _ Hs (str_int_not_empty z)).
  now rewrite (rstrip_newline _ Hs).
Qed.

(** X20: what [save_sequence_number] writes,
    [get_starting_match_sequence_number] reads back: the cursor of the
    miner, whatever integer it is; saving touches nothing else. *)
Theorem save_then_load (self : SteamMiner) (w : world) :
  exists w',
    save_sequence_number (self, w) = (Ok tt, (self, w'))
    /\ get_starting_match_sequence_number w' = Ok (seq_num self)
    /\ trace w' = trace w
    /\ net_calls w' = net_calls w.
Proof.
  exists (saved (seq_num self) w). split; [reflexivity|].
  split; [|split; reflexivity].
  unfold get_starting_match_sequence_number, saved. simpl.
  rewrite readline_no_space by apply str_int_no_space.
  apply py_int_str_int.
Qed.

(** X6: [get_starting_match_sequence_number] reads the first line of
    [seq_num.txt] only: a file that starts with a decimal integer and a
    newline gives that integer, whatever follows. *)
Theorem load_reads_first_line (w : world) (z : Z) (rest : string) :
  seq_num_txt w = Some (str_int z ++ String "010" rest) ->
  get_starting_match_sequence_number w = Ok z.
Proof.
  intros H. unfold get_starting_match_sequence_number. rewrite H.
  rewrite readline_first_line by apply str_int_no_space.
  apply py_int_line.
Qed.

Lemma load_reads_first_line_witness :
  get_starting_match_sequence_number
    (mkWorld (Some ("2461376636" ++ String "010" "patch 7.00")) 0 [])
  = Ok 2461376636.
Proof.
  exact (load_reads_first_line
           (mkWorld (Some ("2461376636" ++ String "010" "patch 7.00")) 0 [])
           2461376636 "patch 7.00" eq_refl).
Defined.

(* ================================================================== *)
(** ** More on the batch plan *)

Lemma batch_plan_shape (games : Z) :
  0 <= games ->
  batch_plan games
  = (repeat 100 (Z.to_nat (games / 100)) ++ [games - games / 100 * 100])%list.
Proof.
  intros Hg. unfold batch_plan, py_range.
  assert (Hc : 0 <= games / 100) by (apply Z.div_pos; lia).
  replace (Z.to_nat (games / 100 + 1)) with (S (Z.to_nat (games / 100)))
    by lia.
  rewrite seq_S, map_app, map_app, map_map. simpl. f_equal.
  - apply map_seq_constant. intros i Hi. unfold batch_size.
    destruct (Z.eqb_spec (Z.of_nat i) (games / 100)); [lia | reflexivity].
  - unfold batch_size. rewrite Z2Nat.id by lia. now rewrite Z.eqb_refl.
Qed.

Lemma sum_repeat (v : Z) (k : nat) :
  fold_right Z.add 0 (repeat v k) = v * Z.of_nat k.
Proof. induction k as [|k IH]; simpl repeat; simpl fold_right; lia. Qed.

Lemma sum_app (l1 l2 : list Z) :
  fold_right Z.add 0 (l1 ++ l2)
  = fold_right Z.add 0 l1 + fold_right Z.add 0 l2.
Proof. induction l1 as [|x l1 IH]; simpl; lia. Qed.

(** X7: for a count that is not negative, clamped as [__init__] clamps
    it, the sizes [run] plans are all between 0 and 100, there are
    [games_number / 100 + 1] of them, and they add up to the clamped
    count, which is at most 10000000. *)
Theorem batch_plan_adds_up (number_of_games : Z) :
  0 <= number_of_games ->
  let games := Z.min number_of_games NUM_GAME_LIMIT in
  Forall (fun size => 0 <= size <= 100) (batch_plan games)
  /\ Z.of_nat (List.length (batch_plan games)) = games / 100 + 1
  /\ fold_right Z.add 0 (batch_plan games) = games
  /\ games <= 10000000.
Proof.
  intros Hn games.
  assert (Hg : 0 <= games) by (unfold games, NUM_GAME_LIMIT; lia).
  assert (Hc : 0 <= games / 100) by (apply Z.div_pos; lia).
  pose proof (Z.mod_pos_bound games 100 ltac:(lia)) as Hm.
  rewrite Z.mod_eq in Hm by lia.
  rewrite (batch_plan_shape games Hg). repeat split.
  - apply Forall_app. split.
    + apply Forall_forall. intros x Hx. apply repeat_spec in Hx. lia.
    + constructor; [lia | constructor].
  - rewrite length_app, repeat_length. simpl. lia.
  - rewrite sum_app, sum_repeat. cbn [fold_right].
    rewrite Z2Nat.id by exact Hc. lia.
  - unfold games, NUM_GAME_LIMIT. lia.
Qed.

Lemma batch_plan_adds_up_witness :
  Forall (fun size => 0 <= size <= 100) (batch_plan 250)
  /\ Z.of_nat (List.length (batch_plan 250)) = 250 / 100 + 1
  /\ fold_right Z.add 0 (batch_plan 250) = 250
  /\ 250 <= 10000000.
Proof. exact (batch_plan_adds_up 250 ltac:(lia)). Defined.

Lemma py_range_nonpositive (n : Z) : n <= 0 -> py_range n = [].
Proof.
  intros Hn. unfold py_range. now replace (Z.to_nat n) with O by lia.
Qed.

(** X8: with a negative count [run] plans no batch: it opens no URL,
    pauses never, writes no identifier, and saves the cursor it started
    with. *)
Theorem run_negative_count
    (net : transport) (repr_container : json -> string)
    (self : SteamMiner) (w : world) :
  games_number self < 0 ->
  batch_plan (games_number self) = []
  /\ run net repr_container (self, w)
     = (Ok JNull,
        (self,
         saved (seq_num self)
           (log (EvPrint ("Start mining: " ++ str_int (seq_num self))) w))).
Proof.
  intros Hneg.
  assert (Hc : games_number self / 100 + 1 <= 0).
  { assert (games_number self / 100 < 0)
      by (apply Z.div_lt_upper_bound; lia).
    lia. }
  split.
  - unfold batch_plan. now rewrite (py_range_nonpositive _ Hc).
  - unfold run. unfold bind at 1. unfold get_self at 1. cbn [fst].
    unfold bind at 1. unfold print at 1.
    rewrite (py_range_nonpositive _ Hc). reflexivity.
Qed.

Lemma run_negative_count_witness :
  batch_plan (-5) = []
  /\ run network_down sample_repr (sample_miner (-5), sample_world)
     = (Ok JNull,
        (sample_miner (-5),
         saved 10 (log (EvPrint "Start mining: 10") sample_world))).
Proof.
  exact (run_negative_count network_down sample_repr (sample_miner (-5))
           sample_world ltac:(reflexivity)).
Defined.

(* ================================================================== *)
(** ** What the loops leave alone *)

Lemma keeps_ret {A X} (f : SteamMiner * world -> X) (a : A) : keeps f (ret a).
Proof. intros s. reflexivity. Qed.

Lemma keeps_raise {A X} (f : SteamMiner * world -> X) (e : exn) :
  keeps f (@raise A e).
Proof. intros s. reflexivity. Qed.

Lemma keeps_lift {A X} (f : SteamMiner * world -> X) (r : result A) :
  keeps f (lift r).
Proof. intros s. reflexivity. Qed.

Lemma keeps_bind {A B X} (f : SteamMiner * world -> X)
    (m : M A) (k : A -> M B) :
  keeps f m -> (forall a, keeps f (k a)) -> keeps f (bind m k).
Proof.
  intros Hm Hk s. unfold bind. specialize (Hm s).
  destruct (m s) as [[a|e] s']; simpl in Hm.
  - now rewrite Hk.
  - exact Hm.
Qed.

Lemma keeps_frame_print line : keeps frame (print line).
Proof. intros [self w]. reflexivity. Qed.

Lemma keeps_frame_sleep n : keeps frame (sleep n).
Proof. intros [self w]. reflexivity. Qed.

Lemma keeps_frame_write text : keeps frame (out_file_write text).
Proof. intros [self w]. reflexivity. Qed.

Lemma keeps_frame_set_seq_num n : keeps frame (set_seq_num n).
Proof. intros [self w]. reflexivity. Qed.

Lemma keeps_frame_get_self : keeps frame get_self.
Proof. intros s. reflexivity. Qed.

Lemma keeps_frame_urlopen net url : keeps frame (urlopen net url).
Proof.
  intros [self w]. unfold urlopen.
  now destruct (net (net_calls w) url).
Qed.

Lemma keeps_frame_get_response net url tries :
  keeps frame (get_response net url tries).
Proof.
  induction tries as [|tries IH]; cbn [get_response]; [apply keeps_ret|].
  apply keeps_bind; [apply keeps_frame_urlopen|]. intros [|j]; simpl.
  - apply keeps_bind; [apply keeps_frame_print|]. intros _.
    apply keeps_bind; [apply keeps_frame_sleep|]. intros _. exact IH.
  - apply keeps_bind; [apply keeps_lift|]. intros [|]; simpl.
    + apply keeps_ret.
    + apply keeps_bind; [apply keeps_frame_print|]. intros _.
      apply keeps_bind; [apply keeps_frame_sleep|]. intros _. exact IH.
Qed.

Lemma keeps_frame_process_matches repr_container ms :
  keeps frame (process_matches repr_container ms).
Proof.
  induction ms as [|r ms IH]; cbn [process_matches]; [apply keeps_ret|].
  apply keeps_bind; [apply keeps_lift|]. intros id.
  apply keeps_bind; [apply keeps_lift|]. intros ok.
  apply keeps_bind.
  - destruct ok; [|apply keeps_ret].
    apply keeps_bind; [apply keeps_lift|]. intros text.
    apply keeps_frame_write.
  - intros _. apply keeps_bind; [apply keeps_lift|]. intros seq.
    apply keeps_bind; [apply keeps_lift|]. intros next.
    apply keeps_bind; [apply keeps_frame_set_seq_num|]. intros _. exact IH.
Qed.

Lemma keeps_frame_run_loop net repr_container chunks remainder indices :
  keeps frame (run_loop net repr_container chunks remainder indices).
Proof.
  induction indices as [|i rest IH]; cbn [run_loop]; [apply keeps_ret|].
  apply keeps_bind; [apply keeps_frame_get_self|]. intros self.
  apply keeps_bind; [apply keeps_frame_get_response|]. intros j.
  destruct (negb (py_truthy j)); [apply keeps_ret|].
  apply keeps_bind; [apply keeps_lift|]. intros ms.
  apply keeps_bind; [apply keeps_frame_process_matches|]. intros _.
  apply keeps_bind; [apply keeps_frame_print|]. intros _. exact IH.
Qed.

(** X9: when [run] ends with an exception, [seq_num.txt] is as it was
    before the run: the progress of the run is not saved.  The count and
    the key of the miner never change, however [run] ends. *)
Theorem run_error_saves_nothing
    (net : transport) (repr_container : json -> string)
    (s s' : SteamMiner * world) (r : result json) :
  run net repr_container s = (r, s') ->
  games_number (fst s') = games_number (fst s)
  /\ api_key (fst s') = api_key (fst s)
  /\ (forall e, r = Raise e -> seq_num_txt (snd s') = seq_num_txt (snd s)).
Proof.
  destruct s as [self w]. unfold run. unfold bind at 1.
  unfold get_self at 1. cbn [fst]. unfold bind at 1. unfold print at 1.
  unfold run_from. unfold bind at 1.
  pose proof (keeps_frame_run_loop net repr_container
                (games_number self / 100)
                (games_number self - games_number self / 100 * 100)
                (py_range (games_number self / 100 + 1))
                (self,
                 log (EvPrint ("Start mining: " ++ str_int (seq_num self))) w))
    as Hk.
  destruct (run_loop net repr_container _ _ _ _) as [[[]|e] [self1 w1]];
    unfold frame in Hk; simpl in Hk; injection Hk as Hg Ha Hf.
  - unfold bind, save_sequence_number, get_self, write_seq_num_txt, ret.
    simpl. intros [= <- <-]. simpl. repeat split; try assumption.
    intros e [=].
  - intros [= <- <-]. simpl. split; [assumption|]. split; [assumption|].
    intros _ _. assumption.
Qed.

Lemma run_error_saves_nothing_witness :
  seq_num_txt
    (snd (snd (run (scripted [response_with sample_records] NetworkFailure)
                 sample_repr (sample_miner 250, sample_world))))
  = seq_num_txt sample_world
  /\ fst (run (scripted [response_with sample_records] NetworkFailure)
            sample_repr (sample_miner 250, sample_world))
     = Raise IOError
  /\ seq_num
       (fst (snd (run (scripted [response_with sample_records] NetworkFailure)
                    sample_repr (sample_miner 250, sample_world))))
     = 13.
Proof.
  split; [|split; vm_compute; reflexivity].
  exact (proj2 (proj2
           (run_error_saves_nothing
              (scripted [response_with sample_records] NetworkFailure)
              sample_repr (sample_miner 250, sample_world)
              (snd (run (scripted [response_with sample_records]
                           NetworkFailure)
                      sample_repr (sample_miner 250, sample_world)))
              (Raise IOError) ltac:(vm_compute; reflexivity)))
           IOError eq_refl).
Defined.

(* ================================================================== *)
(** ** More on [get_response] *)

Lemma pauses_app tr1 tr2 :
  pauses (tr1 ++ tr2) = (pauses tr1 ++ pauses tr2)%list.
Proof.
  induction tr1 as [|[] tr1 IH]; simpl; try rewrite IH; reflexivity.
Qed.

(** X10: whatever the network answers, [get_response] opens the URL it
    was given and no other, at most [max_try] times, pauses 60 and nothing
    else, at most once per call, and leaves the miner and [seq_num.txt]
    alone; what it returns is [None] or decoded JSON that contains
    ['result']. *)
Theorem get_response_bounded
    (net : transport) (url : string) (max_try : nat)
    (self : SteamMiner) (w : world) :
  exists r w' evs,
    get_response net url max_try (self, w) = (r, (self, w'))
    /\ seq_num_txt w' = seq_num_txt w
    /\ trace w' = (trace w ++ evs)%list
    /\ requested_urls evs = repeat url (net_calls w' - net_calls w)
    /\ (net_calls w' - net_calls w <= max_try)%nat
    /\ (net_calls w <= net_calls w')%nat
    /\ (exists k, pauses evs = repeat 60 k
                  /\ (k <= net_calls w' - net_calls w)%nat)
    /\ (forall j, r = Ok j -> j = JNull \/ py_contains "result" j = Ok true).
Proof.
  revert w. induction max_try as [|tries IH]; intros w.
  - exists (Ok JNull), w, []. rewrite app_nil_r, Nat.sub_diag.
    repeat split; try reflexivity; try lia.
    + exists O. split; [reflexivity | lia].
    + intros j [= <-]. now left.
  - cbn [get_response]. unfold bind at 1. unfold urlopen.
    set (w1 := mkWorld (seq_num_txt w) (S (net_calls w))
                 (trace w ++ [EvUrlopen url (net (net_calls w) url)])).
    assert (Hretry :
      forall line,
        exists r w' evs,
          (print line ;; sleep 60 ;; get_response net url tries)%io
            (self, w1) = (r, (self, w'))
          /\ seq_num_txt w' = seq_num_txt w
          /\ trace w' = (trace w ++ evs)%list
          /\ requested_urls evs = repeat url (net_calls w' - net_calls w)
          /\ (net_calls w' - net_calls w <= S tries)%nat
          /\ (net_calls w <= net_calls w')%nat
          /\ (exists k, pauses evs = repeat 60 k
                        /\ (k <= net_calls w' - net_calls w)%nat)
          /\ (forall j, r = Ok j ->
                        j = JNull \/ py_contains "result" j = Ok true)).
    { intros line. unfold bind at 1. unfold print at 1. unfold bind at 1.
      unfold sleep at 1.
      destruct (IH (log (EvSleep 60) (log (EvPrint line) w1)))
        as (r & w' & evs & E & Hf & Ht & Hu & Hn & Hle & (k & Hp & Hk) & Hj).
      simpl in Hf, Ht, Hu, Hn, Hle, Hk.
      exists r, w',
        (EvUrlopen url (net (net_calls w) url) :: EvPrint line
           :: EvSleep 60 :: evs).
      split; [exact E|]. split; [exact Hf|]. split.
      { rewrite Ht. now rewrite <- !app_assoc. }
      split.
      { simpl. rewrite Hu.
        replace (net_calls w' - net_calls w)%nat
          with (S (net_calls w' - S (net_calls w))) by lia.
        reflexivity. }
      split; [lia|]. split; [lia|]. split; [|exact Hj].
      exists (S k). simpl. rewrite Hp. split; [reflexivity | lia]. }
    destruct (net (net_calls w) url) as [|[|j]] eqn:En; cbn [json_load].
    + exists (Raise IOError), w1, [EvUrlopen url NetworkFailure].
      unfold w1. cbn [seq_num_txt net_calls trace].
      replace (S (net_calls w) - net_calls w)%nat with 1%nat by lia.
      repeat split; try reflexivity; try lia.
      * exists O. split; [reflexivity | lia].
      * intros j [=].
    + apply Hretry.
    + unfold bind at 1. unfold lift at 1.
      destruct (py_contains "result" j) as [[|]|e] eqn:Ec; simpl negb;
        cbv iota.
      * exists (Ok j), w1, [EvUrlopen url (Response (Json j))].
        unfold w1, ret. cbn [seq_num_txt net_calls trace].
        replace (S (net_calls w) - net_calls w)%nat with 1%nat by lia.
        repeat split; try reflexivity; try lia.
        -- exists O. split; [reflexivity | lia].
        -- intros j' [= <-]. now right.
      * apply Hretry.
      * exists (Raise e), w1, [EvUrlopen url (Response (Json j))].
        unfold w1. cbn [seq_num_txt net_calls trace].
        replace (S (net_calls w) - net_calls w)%nat with 1%nat by lia.
        repeat split; try reflexivity; try lia.
        -- exists O. split; [reflexivity | lia].
        -- intros j' [=].
Qed.

(** X11: after [k] tries that fail in a retried way, fewer than 10, a
    response with ['result'] is returned as it is: [get_response] has
    then made [k + 1] calls and [k] pauses. *)
Theorem get_response_succeeds_after_retries
    (net : transport) (url : string) (k : nat)
    (self : SteamMiner) (w : world) (j : json) :
  (k < 10)%nat ->
  (forall n, (n < k)%nat ->
             is_transient (net (net_calls w + n)%nat url) = true) ->
  net (net_calls w + k)%nat url = Response (Json j) ->
  py_contains "result" j = Ok true ->
  get_response net url 10 (self, w)
  = (Ok j,
     (self,
      mkWorld (seq_num_txt w) (net_calls w + k + 1)
        (trace w ++ retries net url (net_calls w) k
         ++ [EvUrlopen url (Response (Json j))]))).
Proof.
  intros Hk Ht Hn Hc.
  replace 10%nat with (k + S (9 - k))%nat by lia.
  rewrite (get_response_failed_tries net url k (S (9 - k)) self w Ht).
  rewrite (get_response_first_try net url (9 - k) self
             (after_retries net url k w) j Hn Hc).
  unfold after_retries. simpl. rewrite <- app_assoc.
  now replace (S (net_calls w + k)) with (net_calls w + k + 1)%nat by lia.
Qed.

Lemma get_response_succeeds_after_retries_witness :
  get_response
    (scripted [Response NotJson; response_without_result;
               response_with sample_records] NetworkFailure)
    "u" 10 (sample_miner 250, sample_world)
  = (Ok (JDict [("result",
                 JDict [("status", JInt 1);
                        ("matches", JList sample_records)])]),
     (sample_miner 250,
      mkWorld (seq_num_txt sample_world) 3
        [EvUrlopen "u" (Response NotJson);
         EvPrint "Cannot parse response."; EvSleep 60;
         EvUrlopen "u" response_without_result;
         EvPrint "Invalid json string."; EvSleep 60;
         EvUrlopen "u" (response_with sample_records)])).
Proof.
  exact (get_response_succeeds_after_retries
           (scripted [Response NotJson; response_without_result;
                      response_with sample_records] NetworkFailure)
           "u" 2 (sample_miner 250) sample_world
           (JDict [("result",
                    JDict [("status", JInt 1);
                           ("matches", JList sample_records)])])
           ltac:(lia)
           ltac:(intros [|[|n]] Hn; [reflexivity | reflexivity | lia])
           eq_refl eq_refl).
Defined.

(* ================================================================== *)
(** ** What the inner loop writes and where it stops *)

Lemma written_app tr1 tr2 :
  written (tr1 ++ tr2) = (written tr1 ++ written tr2)%list.
Proof.
  induction tr1 as [|[] tr1 IH]; simpl; try rewrite IH; reflexivity.
Qed.

Lemma process_matches_app_ready repr_container pre rest :
  Forall (ready repr_container) pre ->
  forall self w,
    process_matches repr_container (pre ++ rest) (self, w) =
    process_matches repr_container rest
      (with_seq_num self (cursor_after (seq_num self) pre),
       mkWorld (seq_num_txt w) (net_calls w)
               (trace w ++ flat_map (line_of repr_container) pre)).
Proof.
  induction 1 as [|r pre Hr _ IH]; intros self w.
  - simpl. rewrite with_seq_num_same, app_nil_r. now destruct w.
  - simpl app. rewrite process_matches_step by exact Hr. rewrite IH.
    simpl. now rewrite app_assoc.
Qed.

(** The lines written for records with integer identifiers: one per
    valid record, in order. *)
Lemma written_lines repr_container rs :
  Forall has_int_id rs ->
  written (flat_map (line_of repr_container) rs)
  = map (fun r => str_int (id_of r) ++ String "010" "")
        (filter is_valid rs).
Proof.
  induction 1 as [|r rs [n Hn] _ IH]; [reflexivity|].
  simpl flat_map. rewrite written_app, IH. cbn [filter].
  assert (Hl : written (line_of repr_container r)
               = if is_valid r
                 then [str_int (id_of r) ++ String "010" ""] else []).
  { unfold line_of, is_valid, id_of. rewrite Hn.
    destruct (valid r) as [[|]|e]; reflexivity. }
  rewrite Hl. destruct (is_valid r); reflexivity.
Qed.

Section Written.

Variable net : transport.
Variable repr_container : json -> string.

Lemma run_loop_served_written chunks remainder indices :
  forall batches self w,
    List.length batches = List.length indices ->
    serves net (net_calls w) batches ->
    Forall (ready repr_container) (List.concat batches) ->
    written
      (trace (snd (snd (run_loop net repr_container chunks remainder indices
                          (self, w)))))
    = (written (trace w)
       ++ written (flat_map (line_of repr_container)
                     (List.concat batches)))%list.
Proof.
  induction indices as [|i rest IH]; intros batches self w Hlen Hsrv Hrs.
  - destruct batches; [|discriminate]. simpl. now rewrite app_nil_r.
  - destruct batches as [|b bs]; [discriminate|].
    destruct (Hsrv O b (get_url self (batch_size chunks remainder i))
                eq_refl) as (j & Hn & Hc & Hm).
    rewrite Nat.add_0_r in Hn.
    simpl in Hrs. apply Forall_app in Hrs. destruct Hrs as [Hb Hbs].
    rewrite run_loop_cons.
    rewrite (get_response_first_try net _ 9 self w j Hn Hc).
    rewrite (response_matches_truthy _ _ Hm). simpl negb. cbv iota.
    unfold bind at 1. unfold lift at 1. rewrite Hm.
    unfold bind at 1.
    rewrite (process_matches_ready repr_container b _ _ Hb).
    unfold bind at 1. unfold print at 1.
    rewrite (IH bs).
    + simpl. rewrite !written_app, flat_map_app, written_app. simpl.
      rewrite !app_nil_r. now rewrite app_assoc.
    + simpl in Hlen. now injection Hlen.
    + simpl. now apply serves_tail in Hsrv.
    + exact Hbs.
Qed.

(** X12: when all batches arrive and their records are well formed, with
    integer identifiers, [run] writes to the output one line per valid
    record, the decimal identifier and a newline, in the order of the
    records, and nothing for the others. *)
Theorem run_writes_valid_identifiers
    (self : SteamMiner) (w : world) (batches : list (list json)) :
  List.length batches
    = List.length (py_range (games_number self / 100 + 1)) ->
  serves net (net_calls w) batches ->
  Forall (ready repr_container) (List.concat batches) ->
  Forall has_int_id (List.concat batches) ->
  written (trace (snd (snd (run net repr_container (self, w)))))
  = (written (trace w)
     ++ map (fun r => (str_int (id_of r) ++ String "010" "")%string)
          (filter is_valid (List.concat batches)))%list.
Proof.
  intros Hlen Hsrv Hrs Hid.
  rewrite <- (written_lines repr_container _ Hid).
  unfold run. unfold bind at 1. unfold get_self at 1. cbn [fst].
  unfold bind at 1. unfold print at 1. unfold run_from. unfold bind at 1.
  pose proof (run_loop_served_written
                (games_number self / 100)
                (games_number self - games_number self / 100 * 100)
                (py_range (games_number self / 100 + 1))
                batches self
                (log (EvPrint ("Start mining: " ++ str_int (seq_num self))) w)
                Hlen Hsrv Hrs) as Hw.
  destruct (run_loop_served net repr_container
              (games_number self / 100)
              (games_number self - games_number self / 100 * 100)
              (py_range (games_number self / 100 + 1))
              batches self
              (log (EvPrint ("Start mining: " ++ str_int (seq_num self))) w)
              Hlen Hsrv Hrs) as (w' & E & _).
  rewrite E in Hw |- *. simpl in Hw.
  unfold bind, save_sequence_number, get_self, write_seq_num_txt, ret.
  simpl. rewrite Hw, written_app. simpl. now rewrite app_nil_r.
Qed.

End Written.

Lemma run_writes_valid_identifiers_witness :
  written
    (trace (snd (snd (run (scripted [response_with sample_records]
                                    (response_with []))
                        sample_repr (sample_miner 50, sample_world)))))
  = ["101" ++ String "010" ""; "102" ++ String "010" ""].
Proof.
  rewrite (run_writes_valid_identifiers
             (scripted [response_with sample_records] (response_with []))
             sample_repr (sample_miner 50) sample_world [sample_records]).
  - reflexivity.
  - reflexivity.
  - intros [|[|k]] b url Hk; simpl in Hk; try discriminate;
      injection Hk as <-; eexists; repeat split; reflexivity.
  - simpl. unfold sample_records. prove_ready.
  - simpl. unfold sample_records.
    repeat constructor; eexists; reflexivity.
Defined.

(** X13: the inner loop stops at the first record without ['match_id']
    with a [KeyError], whether that record is valid or not: the records
    before it are done (their lines written, the cursor after the last of
    them), the records after it are not looked at. *)
Theorem process_matches_stops_without_id
    (repr_container : json -> string) (pre post : list json)
    (fields : list (string * json)) (self : SteamMiner) (w : world) :
  Forall (ready repr_container) pre ->
  dict_get "match_id" fields = None ->
  process_matches repr_container (pre ++ JDict fields :: post) (self, w)
  = (Raise KeyError,
     (with_seq_num self (cursor_after (seq_num self) pre),
      mkWorld (seq_num_txt w) (net_calls w)
              (trace w ++ flat_map (line_of repr_container) pre))).
Proof.
  intros Hpre Hid.
  rewrite (process_matches_app_ready repr_container pre _ Hpre).
  cbn [process_matches]. unfold bind at 1. unfold lift at 1. simpl.
  now rewrite Hid.
Qed.

Lemma process_matches_stops_without_id_witness :
  process_matches sample_repr
    (sample_records ++ JDict [("match_seq_num", JInt 13)] :: sample_records)
    (sample_miner 250, sample_world)
  = (Raise KeyError,
     (mkMiner 250 "KEY" 13,
      mkWorld (seq_num_txt sample_world) 0
        [EvWrite ("101" ++ String "010" "");
         EvWrite ("102" ++ String "010" "")])).
Proof.
  exact (process_matches_stops_without_id sample_repr sample_records
           sample_records [("match_seq_num", JInt 13)]
           (sample_miner 250) sample_world
           ltac:(unfold sample_records; prove_ready) eq_refl).
Defined.

(** X14: the identifier of a valid record is written before its sequence
    number is read: when a valid record has no ['match_seq_num'], its line
    is in the output, the cursor has not moved past the record before it,
    and the loop ends with a [KeyError]. *)
Theorem process_matches_writes_before_advancing
    (repr_container : json -> string) (pre post : list json)
    (fields : list (string * json)) (id : Z) (self : SteamMiner) (w : world) :
  Forall (ready repr_container) pre ->
  dict_get "match_id" fields = Some (JInt id) ->
  valid (JDict fields) = Ok true ->
  dict_get "match_seq_num" fields = None ->
  process_matches repr_container (pre ++ JDict fields :: post) (self, w)
  = (Raise KeyError,
     (with_seq_num self (cursor_after (seq_num self) pre),
      mkWorld (seq_num_txt w) (net_calls w)
              (trace w ++ flat_map (line_of repr_container) pre
               ++ [EvWrite (str_int id ++ String "010" "")]))).
Proof.
  intros Hpre Hid Hv Hseq.
  rewrite (process_matches_app_ready repr_container pre _ Hpre).
  cbn [process_matches]. unfold bind at 1. unfold lift at 1.
  cbn [py_getitem]. rewrite Hid.
  unfold bind at 1. unfold lift at 1. rewrite Hv.
  unfold bind at 1. unfold bind at 1. unfold lift at 1. cbn [py_str].
  unfold out_file_write at 1.
  unfold bind at 1. unfold lift at 1. rewrite Hseq.
  unfold log. simpl. now rewrite <- app_assoc.
Qed.

Lemma process_matches_writes_before_advancing_witness :
  process_matches sample_repr
    (sample_records
     ++ JDict [("players", JList [player 0]); ("duration", JInt 2400);
               ("match_id", JInt 103); ("human_players", JInt 10);
               ("game_mode", JInt 22)] :: [])
    (sample_miner 250, sample_world)
  = (Raise KeyError,
     (mkMiner 250 "KEY" 13,
      mkWorld (seq_num_txt sample_world) 0
        [EvWrite ("101" ++ String "010" "");
         EvWrite ("102" ++ String "010" "");
         EvWrite ("103" ++ String "010" "")])).
Proof.
  exact (process_matches_writes_before_advancing sample_repr sample_records
           []
           [("players", JList [player 0]); ("duration", JInt 2400);
            ("match_id", JInt 103); ("human_players", JInt 10);
            ("game_mode", JInt 22)]
           103 (sample_miner 250) sample_world
           ltac:(unfold sample_records; prove_ready)
           eq_refl eq_refl eq_refl).
Defined.

(* ================================================================== *)
(** ** The command line *)

Section MainProperties.

Variable net : transport.
Variable repr_container : json -> string.

(** X15: when [main] ends with [sys.exit] and a message, nothing was
    done: no request, no line printed or written, [seq_num.txt] as it was.
    The message tells the first thing that is wrong, in this order: the
    key missing from the environment, fewer than two arguments, an output
    file that does not open, a count that is not an integer. *)
Theorem main_exit_does_nothing (p : process) (w : world) (message : string) :
  fst (main net repr_container p w) = SystemExit message ->
  snd (main net repr_container p w) = w
  /\ ((environ_key p = None
       /\ message = "Please set API_KEY environment variable.")
      \/ (environ_key p <> None
          /\ (List.length (args p) < 2)%nat
          /\ message = "Usage: " ++ argv0 p
                       ++ " <output_file> <number_of_games>")
      \/ (environ_key p <> None
          /\ (2 <= List.length (args p))%nat
          /\ out_file_opens p = false
          /\ message = "Invalid output file")
      \/ (environ_key p <> None
          /\ out_file_opens p = true
          /\ (exists a b rest,
                args p = a :: b :: rest /\ py_int b = Raise ValueError)
          /\ message = "Invalid number of games")).
Proof.
  unfold main. destruct (environ_key p) as [key|].
  2: { simpl. intros [= <-]. split; [reflexivity|]. left. now split. }
  destruct (args p) as [|a [|b rest]].
  - simpl. intros [= <-]. split; [reflexivity|]. right. left.
    repeat split; [discriminate | lia].
  - simpl. intros [= <-]. split; [reflexivity|]. right. left.
    repeat split; [discriminate | lia].
  - destruct (out_file_opens p); simpl negb; cbv iota.
    2: { simpl. intros [= <-]. split; [reflexivity|]. right. right. left.
         repeat split; [discriminate | simpl; lia]. }
    destruct (py_int b) as [n|[]] eqn:Eb; simpl; try discriminate.
    + destruct (init n key w) as [miner|e]; simpl; [|discriminate].
      destruct (run net repr_container (miner, w)) as [[v|e] [self' w']];
        discriminate.
    + intros [= <-]. split; [reflexivity|]. right. right. right.
      repeat split; [discriminate|]. now exists a, b, rest.
Qed.

(** X16: a missing [seq_num.txt], or one that does not start with an
    integer, is not among the errors [main] reports: with a key, an output
    file and a count in order, the exception of the constructor ends the
    process, before any request. *)
Theorem main_cursor_file_error
    (p : process) (w : world) (key a b : string) (rest : list string)
    (n : Z) (e : exn) :
  environ_key p = Some key ->
  args p = a :: b :: rest ->
  out_file_opens p = true ->
  py_int b = Ok n ->
  get_starting_match_sequence_number w = Raise e ->
  main net repr_container p w = (Traceback e, w)
  /\ (seq_num_txt w = None -> e = IOError).
Proof.
  intros Hk Ha Ho Hb Hc. unfold main. rewrite Hk, Ha, Ho, Hb. simpl.
  unfold init. rewrite Hc. simpl. split; [reflexivity|].
  intros Hf. unfold get_starting_match_sequence_number in Hc.
  rewrite Hf in Hc. now injection Hc.
Qed.

(** X17: with a key, an output file and a count in order and a readable
    [seq_num.txt], [main] is the run of a miner whose count is the
    argument clamped to 10000000 and whose cursor is the integer in the
    file; when [main] returns, the file holds the final cursor of that
    run. *)
Theorem main_runs_the_miner
    (p : process) (w : world) (key a b : string) (rest : list string)
    (n c : Z) :
  environ_key p = Some key ->
  args p = a :: b :: rest ->
  out_file_opens p = true ->
  py_int b = Ok n ->
  get_starting_match_sequence_number w = Ok c ->
  let out := run net repr_container
               (mkMiner (Z.min n NUM_GAME_LIMIT) key c, w) in
  snd (main net repr_container p w) = snd (snd out)
  /\ (forall e, fst (main net repr_container p w) = Traceback e
                <-> fst out = Raise e)
  /\ (fst (main net repr_container p w) = Finished ->
      seq_num_txt (snd (main net repr_container p w))
      = Some (str_int (seq_num (fst (snd out))))).
Proof.
  intros Hk Ha Ho Hb Hc out. unfold main. rewrite Hk, Ha, Ho, Hb. simpl.
  unfold init. rewrite Hc. simpl. fold out.
  pose proof (run_saves_cursor net repr_container
                (mkMiner (Z.min n NUM_GAME_LIMIT) key c, w)) as Hs.
  fold out in Hs.
  destruct out as [[v|e] [self' w']]; simpl.
  - split; [reflexivity|]. split.
    + intros e. split; discriminate.
    + intros _. exact (Hs v (self', w') eq_refl).
  - split; [reflexivity|]. split.
    + intros e'. split; intros [= ->]; reflexivity.
    + discriminate.
Qed.

End MainProperties.

Lemma main_exit_does_nothing_witness :
  snd (main network_down sample_repr (sample_process "many") sample_world)
  = sample_world
  /\ fst (main network_down sample_repr (sample_process "many") sample_world)
     = SystemExit "Invalid number of games".
Proof.
  split; [|reflexivity].
  exact (proj1 (main_exit_does_nothing network_down sample_repr
                  (sample_process "many") sample_world
                  "Invalid number of games" eq_refl)).
Defined.

Lemma main_cursor_file_error_witness :
  main no_more_data sample_repr (sample_process "250") (mkWorld None 0 [])
  = (Traceback IOError, mkWorld None 0 []).
Proof.
  exact (proj1 (main_cursor_file_error no_more_data sample_repr
                  (sample_process "250") (mkWorld None 0 [])
                  "KEY" "matches.txt" "250" [] 250 IOError
                  eq_refl eq_refl eq_refl eq_refl eq_refl)).
Defined.

Lemma main_runs_the_miner_witness :
  snd (main (provider sample_db) sample_repr (sample_process "3")
         sample_world)
  = snd (snd (run (provider sample_db) sample_repr
                (sample_miner 3, sample_world)))
  /\ seq_num_txt
       (snd (main (provider sample_db) sample_repr (sample_process "3")
               sample_world))
     = Some "13".
Proof.
  destruct (main_runs_the_miner (provider sample_db) sample_repr
              (sample_process "3") sample_world
              "KEY" "matches.txt" "3" [] 3 10
              eq_refl eq_refl eq_refl eq_refl eq_refl) as (H1 & _ & H3).
  split; [exact H1|].
  rewrite (H3 ltac:(vm_compute; reflexivity)). vm_compute. reflexivity.
Defined.

(* ================================================================== *)
(** ** Malformed input *)

(** X18: a player entry that is not an object makes [valid] raise
    [AttributeError], unless a player before it already has status 1. *)
Theorem valid_player_not_object
    (m : json) (pre post : list json) (p : json) :
  py_getitem m "players" = Ok (JList (pre ++ p :: post)) ->
  Forall is_dict pre ->
  existsb counts_as_leaver pre = false ->
  ~ is_dict p ->
  valid m = Raise AttributeError.
Proof.
  intros Hm Hpre Hno Hp. unfold valid. rewrite Hm. simpl.
  assert (E : leaver_found (pre ++ p :: post) = Raise AttributeError).
  { clear Hm. induction Hpre as [|q pre Hq _ IH].
    - simpl. destruct p; simpl in *; try reflexivity.
      exfalso. now apply Hp.
    - simpl in Hno. apply orb_false_iff in Hno. destruct Hno as [Hq' Hno].
      destruct q; try contradiction. unfold counts_as_leaver in Hq'.
      simpl in *.
      destruct (dict_get "leaver_status" d) as [x|]; simpl in *.
      + rewrite Hq'. now apply IH.
      + discriminate. }
  now rewrite E.
Qed.

Lemma valid_player_not_object_witness :
  valid (match_record 1 10 2400 (JList [player 0; JInt 7; player 1]))
  = Raise AttributeError.
Proof.
  exact (valid_player_not_object
           (match_record 1 10 2400 (JList [player 0; JInt 7; player 1]))
           [player 0] [player 1] (JInt 7)
           eq_refl ltac:(repeat constructor) eq_refl
           ltac:(intros H; exact H)).
Defined.

Lemma contains_result_truthy j :
  py_contains "result" j = Ok true -> py_truthy j = true.
Proof.
  destruct j as [| | | s | l | d]; simpl; try discriminate.
  - destruct s; [discriminate | reflexivity].
  - destruct l; [discriminate | reflexivity].
  - destruct d; [discriminate | reflexivity].
Qed.

(** X19: a decoded response that has ['result'] but no list of matches
    in it is not retried: [run] ends with the exception of the lookup at
    that batch, after one call, without a pause and without saving the
    cursor. *)
Theorem run_stops_on_result_without_matches
    (net : transport) (repr_container : json -> string)
    (chunks remainder i : Z) (rest : list Z)
    (self : SteamMiner) (w : world) (j : json) (e : exn) :
  let url := get_url self (batch_size chunks remainder i) in
  net (net_calls w) url = Response (Json j) ->
  py_contains "result" j = Ok true ->
  response_matches j = Raise e ->
  run_from net repr_container chunks remainder (i :: rest) (self, w)
  = (Raise e,
     (self,
      mkWorld (seq_num_txt w) (S (net_calls w))
        (trace w ++ [EvUrlopen url (Response (Json j))]))).
Proof.
  intros url Hn Hc Hm. unfold run_from. unfold bind at 1.
  rewrite run_loop_cons. fold url.
  rewrite (get_response_first_try net url 9 self w j Hn Hc).
  rewrite (contains_result_truthy j Hc). simpl negb. cbv iota.
  unfold bind at 1. unfold lift at 1. now rewrite Hm.
Qed.

Lemma run_stops_on_result_without_matches_witness :
  run_from
    (scripted [Response (Json (JDict [("result",
                                       JDict [("status", JInt 2)])]))]
              NetworkFailure)
    sample_repr 2 50 [0; 1; 2] (sample_miner 250, sample_world)
  = (Raise KeyError,
     (sample_miner 250,
      mkWorld (seq_num_txt sample_world) 1
        [EvUrlopen (get_url (sample_miner 250) 100)
           (Response (Json (JDict [("result",
                                    JDict [("status", JInt 2)])])))])).
Proof.
  exact (run_stops_on_result_without_matches
           (scripted [Response (Json (JDict [("result",
                                              JDict [("status", JInt 2)])]))]
                     NetworkFailure)
           sample_repr 2 50 0 [1; 2] (sample_miner 250) sample_world
           (JDict [("result", JDict [("status", JInt 2)])]) KeyError
           eq_refl eq_refl eq_refl).
Defined.
